(** * BingSearchAgent (src/agents/agent_bing.py): a shallow embedding

    The agent turns a request dictionary into one HTTP call per query,
    normalises each JSON answer into hit records and renders the records
    as text.  The Python code is dynamically typed, so values are
    modelled by a small universe [pyval] and every primitive the source
    uses ([in], subscription, iteration, [.get], truthiness) is written
    out with the exception it raises on a value of the wrong type.

    Effects are explicit.  A computation runs in a world made of the
    agent object ([self]) and the log of outbound HTTP calls; it either
    returns a value or raises.  The network itself is a parameter: a
    function from the request that is sent to what [requests.get] does
    with it.  Console output ([print], [colored]) is left out. *)

From Stdlib Require Import String Ascii List ZArith Lia Bool Permutation.
From Stdlib Require Import DecimalString.
Import ListNotations.
Local Open Scope string_scope.

Set Warnings "-register-all".

(** ** Python values and exceptions *)

(** The values a request or a decoded JSON body is made of.  A string
    is held as the bytes of its UTF-8 encoding; a JSON number is an integer
    (a float behaves as an integer does in every operation below: it is
    not a container, not iterable and has no [get]). *)
Inductive pyval : Type :=
| PNone
| PBool (b : bool)
| PInt (z : Z)
| PStr (s : string)
| PList (l : list pyval)
| PDict (d : list (string * pyval)).

(** A [dict] with string keys, in insertion order.  Keys are unique in a
    Python dict; [lookup] takes the first binding. *)
Definition pydict := list (string * pyval).

(** The exception classes that the [except] clauses of the source tell
    apart, all of them subclasses of [Exception].  [HTTPError] is a subclass of [RequestException]; a
    [RequestException] here is any other member of that family
    (connection failure, timeout, invalid URL, undecodable body). *)
Inductive exn_class : Type :=
| HTTPError
| RequestException
| ValueError
| TypeError
| AttributeError
| KeyError
| OtherException.

(** An exception object: its class and [str(ex)]. *)
Record pyexn : Type := mk_exn { exn_cls : exn_class; exn_msg : string }.

(** Result of a pure Python expression: raised exception or value. *)
Definition res (A : Type) : Type := (pyexn + A)%type.

Definition ok {A} (a : A) : res A := inr a.
Definition throw {A} (c : exn_class) (m : string) : res A := inl (mk_exn c m).

Definition rbind {A B} (r : res A) (k : A -> res B) : res B :=
  match r with
  | inl e => inl e
  | inr a => k a
  end.

Fixpoint rmap {A B} (f : A -> res B) (xs : list A) : res (list B) :=
  match xs with
  | [] => ok []
  | x :: xs' =>
      rbind (f x) (fun y => rbind (rmap f xs') (fun ys => ok (y :: ys)))
  end.

Module Py.

Definition type_name (v : pyval) : string :=
  match v with
  | PNone => "NoneType"
  | PBool _ => "bool"
  | PInt _ => "int"
  | PStr _ => "str"
  | PList _ => "list"
  | PDict _ => "dict"
  end.

(** [bool(v)], as used by [if not queries] and [if sitelinks]. *)
Definition truthy (v : pyval) : bool :=
  match v with
  | PNone => false
  | PBool b => b
  | PInt z => negb (Z.eqb z 0)
  | PStr s => negb (String.eqb s "")
  | PList l => match l with [] => false | _ => true end
  | PDict d => match d with [] => false | _ => true end
  end.

Fixpoint lookup (k : string) (d : pydict) : option pyval :=
  match d with
  | [] => None
  | (k', v) :: d' => if String.eqb k k' then Some v else lookup k d'
  end.

Definition has_key (k : string) (d : pydict) : bool :=
  match lookup k d with Some _ => true | None => false end.

Definition keys (d : pydict) : list string := map fst d.

(** [v == k] for a string literal [k]. *)
Definition eq_str (k : string) (v : pyval) : bool :=
  match v with
  | PStr s => String.eqb k s
  | _ => false
  end.

Fixpoint is_substring (k s : string) : bool :=
  if String.prefix k s then true
  else match s with
       | EmptyString => false
       | String _ s' => is_substring k s'
       end.

(** A Python [str] is a sequence of code points; here it is held as
    the bytes of its UTF-8 encoding.  A byte [10xxxxxx] continues the
    code point of the byte before it. *)
Definition is_continuation (c : ascii) : bool :=
  match c with
  | Ascii _ _ _ _ _ _ b6 b7 => b7 && negb b6
  end.

(** The code points of a string, each with all of its bytes. *)
Fixpoint code_points (s : string) : list string :=
  match s with
  | EmptyString => []
  | String c s' =>
      let rest := code_points s' in
      match s' with
      | EmptyString => [String c EmptyString]
      | String c' _ =>
          if is_continuation c' then
            match rest with
            | g :: gs => String c g :: gs
            | [] => [String c EmptyString]
            end
          else String c EmptyString :: rest
      end
  end.

(** The items of [for c in s]: one one-character string per code
    point. *)
Definition chars (s : string) : list pyval :=
  map PStr (code_points s).

(** [k in v] for a string literal [k]. *)
Definition contains (k : string) (v : pyval) : res bool :=
  match v with
  | PDict d => ok (has_key k d)
  | PList l => ok (existsb (eq_str k) l)
  | PStr s => ok (is_substring k s)
  | _ => throw TypeError
           ("argument of type '" ++ type_name v ++ "' is not iterable")
  end.

(** [v[k]] for a string literal [k]. *)
Definition getitem (v : pyval) (k : string) : res pyval :=
  match v with
  | PDict d =>
      match lookup k d with
      | Some x => ok x
      | None => throw KeyError ("'" ++ k ++ "'")
      end
  | PList _ => throw TypeError "list indices must be integers or slices, not str"
  | PStr _ => throw TypeError "string indices must be integers, not 'str'"
  | _ => throw TypeError ("'" ++ type_name v ++ "' object is not subscriptable")
  end.

(** The items produced by [for x in v]. *)
Definition iter (v : pyval) : res (list pyval) :=
  match v with
  | PList l => ok l
  | PDict d => ok (map PStr (keys d))
  | PStr s => ok (chars s)
  | _ => throw TypeError ("'" ++ type_name v ++ "' object is not iterable")
  end.

(** [v.get(k, default)]: only a dict has the method. *)
Definition get (v : pyval) (k : string) (default : pyval) : res pyval :=
  match v with
  | PDict d =>
      match lookup k d with
      | Some x => ok x
      | None => ok default
      end
  | _ => throw AttributeError
           ("'" ++ type_name v ++ "' object has no attribute 'get'")
  end.

(** The one-character string ["\n"]. *)
Definition nl : string := String (ascii_of_nat 10) EmptyString.

(** [sep.join(parts)] *)
Definition join (sep : string) (parts : list string) : string :=
  String.concat sep parts.

(** [s * n] *)
Fixpoint repeat_str (s : string) (n : nat) : string :=
  match n with
  | O => ""
  | S n' => s ++ repeat_str s n'
  end.

Definition str_of_Z (z : Z) : string :=
  NilZero.string_of_int (Z.to_int z).

End Py.

(** ** The agent, the network and the world *)

(** The fields that [__init__] stores on the object. *)
Record Agent : Type := mk_agent {
  name : string;
  location : string;
  api_key : string;
  endpoint : string
}.

(** [BingSearchAgent.__init__]: the default location is the constant
    ["us"]; key and endpoint are the caller's. *)
Definition init (nm key ep : string) : Agent :=
  {| name := nm; location := "us"; api_key := key; endpoint := ep |}.

(** What [requests.get(url, headers=..., params=...)] is called with. *)
Record request : Type := mk_request {
  req_url : string;
  req_headers : pydict;
  req_params : pydict
}.

(** A response object: status line, final URL, and what [.json()] does
    (returns the decoded body or raises). *)
Record response : Type := mk_response {
  status_code : Z;
  reason : string;
  resp_url : string;
  json_body : res pyval
}.

(** [requests.get] returns a response or raises. *)
Definition reply : Type := res response.

(** [Response.raise_for_status] of the requests library: an [HTTPError]
    for a 4xx or 5xx status, nothing otherwise. *)
Definition raise_for_status (r : response) : res unit :=
  if (400 <=? status_code r)%Z && (status_code r <? 500)%Z then
    throw HTTPError (Py.str_of_Z (status_code r) ++ " Client Error: "
                     ++ reason r ++ " for url: " ++ resp_url r)
  else if (500 <=? status_code r)%Z && (status_code r <? 600)%Z then
    throw HTTPError (Py.str_of_Z (status_code r) ++ " Server Error: "
                     ++ reason r ++ " for url: " ++ resp_url r)
  else ok tt.

Record World : Type := mk_world {
  self : Agent;
  calls : list request
}.

(** Computations: read and write the world, return or raise. *)
Definition M (A : Type) : Type := World -> res A * World.

Definition ret {A} (a : A) : M A := fun w => (inr a, w).

Definition raise {A} (c : exn_class) (m : string) : M A :=
  fun w => (inl (mk_exn c m), w).

Definition bind {A B} (m : M A) (k : A -> M B) : M B :=
  fun w =>
    match m w with
    | (inl e, w') => (inl e, w')
    | (inr a, w') => k a w'
    end.

Definition lift {A} (r : res A) : M A := fun w => (r, w).

Definition get_self : M Agent := fun w => (inr (self w), w).

(** [try: body except Exception as e: handler e] *)
Definition try_except {A} (body : M A) (handler : pyexn -> M A) : M A :=
  fun w =>
    match body w with
    | (inl e, w') => handler e w'
    | (inr a, w') => (inr a, w')
    end.

(** Run a computation to completion and keep its outcome, as a
    [Future] does for the callable it was submitted with. *)
Definition capture {A} (m : M A) : M (res A) :=
  fun w => let (r, w') := m w in (inr r, w').

Fixpoint mapM {A B} (f : A -> M B) (xs : list A) : M (list B) :=
  match xs with
  | [] => ret []
  | x :: xs' =>
      bind (f x) (fun y => bind (mapM f xs') (fun ys => ret (y :: ys)))
  end.

Declare Scope py_scope.
Delimit Scope py_scope with py.
Notation "x <- m ;; k" := (bind m (fun x => k))
  (at level 61, m at next level, right associativity) : py_scope.
Notation "x <~ r ;; k" := (rbind r (fun x => k))
  (at level 61, r at next level, right associativity) : py_scope.
Local Open Scope py_scope.

(** ** The program *)

Section Program.

(** The outside world: what [requests.get] does with a request. *)
Variable net : request -> reply.

(** Python's [str()], used by the f-strings to render a value. *)
Variable py_str : pyval -> string.

(** [requests.get]: one outbound call, recorded in the log. *)
Definition requests_get (url : string) (headers params : pydict)
  : M response :=
  fun w =>
    let rq := mk_request url headers params in
    (net rq, mk_world (self w) (calls w ++ [rq])).

(** [BingSearchAgent.get_guided_json] *)
Definition get_guided_json (state : pyval) : M pyval :=
  let guided_json_schema :=
    PDict [
      ("type", PStr "object");
      ("properties", PDict [
        ("queries", PDict [
          ("type", PStr "array");
          ("items", PDict [
            ("type", PStr "string");
            ("description", PStr "A search query string.")]);
          ("description", PStr "A list of search query strings.")]);
        ("location", PDict [
          ("type", PStr "string");
          ("description",
            PStr ("The geographic location for the search results. "
                  ++ "Available locations: 'us', 'gb', 'nl', 'ca'."))])]);
      ("required", PList [PStr "queries"; PStr "location"]);
      ("additionalProperties", PBool false)] in
  ret guided_json_schema.

(** The body of the [for item in ...] loop of [bing_search]. *)
Definition simplify_item (query item : pyval) : res pyval :=
  title <~ Py.get item "name" (PStr "No Title") ;;
  link <~ Py.get item "url" (PStr "#") ;;
  let sitelinks := PList [] in
  ok (PDict [("query", query); ("title", title);
             ("link", link); ("sitelinks", sitelinks)]).

(** The part of [bing_search] that follows [results = response.json()]. *)
Definition normalize (query results : pyval) : res pyval :=
  has_web <~ Py.contains "webPages" results ;;
  has_value <~ (if has_web : bool
                then (web <~ Py.getitem results "webPages" ;;
                      Py.contains "value" web)
                else ok false) ;;
  if has_value : bool then
    web <~ Py.getitem results "webPages" ;;
    value <~ Py.getitem web "value" ;;
    items <~ Py.iter value ;;
    simplified_results <~ rmap (simplify_item query) items ;;
    ok (PDict [("organic_results", PList simplified_results)])
  else
    ok (PDict [("organic_results", PList [])]).

(** The three [except] clauses of [bing_search], in order. *)
Definition bing_search_handler (e : pyexn) : M pyval :=
  match exn_cls e with
  | HTTPError =>
      ret (PDict [("error", PStr ("HTTP error occurred: " ++ exn_msg e))])
  | RequestException =>
      ret (PDict [("error", PStr ("Request error occurred: " ++ exn_msg e))])
  | _ =>
      ret (PDict [("error", PStr (exn_msg e))])
  end.

(** [BingSearchAgent.bing_search] *)
Definition bing_search (query location : pyval) : M pyval :=
  me <- get_self ;;
  let headers := [("Ocp-Apim-Subscription-Key", PStr (api_key me))] in
  let params := [("q", query); ("mkt", location); ("count", PInt 10)] in
  try_except
    (response <- requests_get (endpoint me) headers params ;;
     _ <- lift (raise_for_status response) ;;
     results <- lift (json_body response) ;;
     lift (normalize query results))
    bing_search_handler.

(** One line of the sitelinks listing. *)
Definition format_sitelink (sitelink : pyval) : res string :=
  sitelink_title <~ Py.get sitelink "title" (PStr "No Title") ;;
  sitelink_link <~ Py.get sitelink "link" (PStr "No Link") ;;
  ok ("    - " ++ py_str sitelink_title ++ ": " ++ py_str sitelink_link).

(** The body of the [for result in organic_results] loop. *)
Definition format_result (result : pyval) : res string :=
  query <~ Py.get result "query" (PStr "No Query") ;;
  title <~ Py.get result "title" (PStr "No Title") ;;
  link <~ Py.get result "link" (PStr "No Link") ;;
  let result_string :=
    "Query: " ++ py_str query ++ Py.nl ++ "Title: " ++ py_str title
    ++ Py.nl ++ "Link: " ++ py_str link in
  sitelinks <~ Py.get result "sitelinks" (PList []) ;;
  result_string <~
    (if Py.truthy sitelinks then
       items <~ Py.iter sitelinks ;;
       sitelinks_strings <~ rmap format_sitelink items ;;
       let sitelinks_formatted :=
         Py.nl ++ "Sitelinks:" ++ Py.nl ++ Py.join Py.nl sitelinks_strings in
       ok (result_string ++ sitelinks_formatted)
     else ok (result_string ++ Py.nl ++ "Sitelinks: None")) ;;
  ok (result_string ++ Py.nl ++ Py.repeat_str "-" 40).

(** [BingSearchAgent.format_search_results] *)
Definition format_search_results (search_results : pyval) : res string :=
  organic_results <~ Py.get search_results "organic_results" (PList []) ;;
  results <~ Py.iter organic_results ;;
  formatted_strings <~ rmap format_result results ;;
  let final_string := Py.join Py.nl formatted_strings in
  ok final_string.

(** The body of the [for future in as_completed(...)] loop of
    [execute_tool]: [outcome] is what the future holds, the value
    [bing_search] returned or the exception it raised. *)
Definition render_outcome (query : pyval) (outcome : res pyval) : string :=
  match (result <~ outcome ;; format_search_results result) with
  | inr formatted_result_str => formatted_result_str
  | inl exc =>
      "Error for query '" ++ py_str query ++ "': " ++ exn_msg exc
  end.

(** [executor.submit(self.bing_search, query, location)] for each
    query, in submission order: each future is paired with its query,
    as in [future_to_query].  The workers share nothing but [self],
    which [bing_search] only reads, and the network answers a request
    by its content, so the calls are run one after the other here and
    the log lists them in submission order; the interleaving that the
    pool allows shows only in the order in which the futures are
    yielded, which is the parameter of [as_completed]. *)
Definition submit_all (queries : list pyval) (location : pyval)
  : M (list (pyval * res pyval)) :=
  mapM (fun query =>
          outcome <- capture (bing_search query location) ;;
          ret (query, outcome))
       queries.

(** [as_completed]: the futures in the order the iterator yields them,
    given as the list [order] of positions in the submission order.
    The library yields the futures that have already finished when it
    is entered first, in no particular order, and the others as they
    complete; so any order can occur, and each future occurs once. *)
Fixpoint as_completed {A} (futures : list A) (order : list nat) : list A :=
  match order with
  | [] => []
  | i :: order' =>
      match nth_error futures i with
      | Some f => f :: as_completed futures order'
      | None => as_completed futures order'
      end
  end.

(** The list [search_results_list] that [execute_tool] joins. *)
Definition search_results_list (order : list nat)
           (futures : list (pyval * res pyval)) : list string :=
  map (fun f => render_outcome (fst f) (snd f)) (as_completed futures order).

(** [BingSearchAgent.execute_tool].  [order] is the order in which
    [as_completed] yields the submitted calls. *)
Definition execute_tool (order : list nat) (tool_response : pydict)
           (state : pyval) : M string :=
  me <- get_self ;;
  let queries :=
    match Py.lookup "queries" tool_response with
    | Some v => v
    | None => PNone
    end in
  let location :=
    match Py.lookup "location" tool_response with
    | Some v => v
    | None => PStr (location me)
    end in
  if negb (Py.truthy queries) then
    raise ValueError "Search queries are missing from the tool response"
  else
    qs <- lift (Py.iter queries) ;;
    futures <- submit_all qs location ;;
    let combined_results := Py.join Py.nl (search_results_list order futures) in
    ret combined_results.

End Program.

Arguments get_guided_json state _ : assert.

(** ** What one query contributes, as a function of the network's answer *)

Section Outcomes.

Variable net : request -> reply.
Variable py_str : pyval -> string.

(** The request that [bing_search] sends for a query. *)
Definition the_request (a : Agent) (query location : pyval) : request :=
  mk_request (endpoint a)
             [("Ocp-Apim-Subscription-Key", PStr (api_key a))]
             [("q", query); ("mkt", location); ("count", PInt 10)].

(** The [try] block of [bing_search], without the log. *)
Definition fetch (a : Agent) (query location : pyval) : res pyval :=
  response <~ net (the_request a query location) ;;
  _ <~ raise_for_status response ;;
  results <~ json_body response ;;
  normalize query results.

(** The dictionary of the [except] clause that catches [e]. *)
Definition error_dict (e : pyexn) : pyval :=
  match exn_cls e with
  | HTTPError => PDict [("error", PStr ("HTTP error occurred: " ++ exn_msg e))]
  | RequestException =>
      PDict [("error", PStr ("Request error occurred: " ++ exn_msg e))]
  | _ => PDict [("error", PStr (exn_msg e))]
  end.

(** The value [bing_search] returns. *)
Definition outcome (a : Agent) (query location : pyval) : pyval :=
  match fetch a query location with
  | inr v => v
  | inl e => error_dict e
  end.

(** The entry of the report that belongs to a query. *)
Definition entry (a : Agent) (location query : pyval) : string :=
  render_outcome py_str query (inr (outcome a query location)).

End Outcomes.

(** ** The request and the hits as the documentation describes them *)

(** The location of a request: the [location] field, or the agent's
    default when the key is absent. *)
Definition location_of (a : Agent) (tool_response : pydict) : pyval :=
  match Py.lookup "location" tool_response with
  | Some v => v
  | None => PStr (location a)
  end.

(** The field is absent or an empty list. *)
Definition queries_missing (tool_response : pydict) : bool :=
  match Py.lookup "queries" tool_response with
  | None => true
  | Some (PList []) => true
  | Some _ => false
  end.

(** The field, when present, is a list (the docstring's "list of search
    query strings", the schema's array). *)
Definition queries_is_list (tool_response : pydict) : bool :=
  match Py.lookup "queries" tool_response with
  | None => true
  | Some (PList _) => true
  | Some _ => false
  end.

Record Sitelink : Type := mk_sitelink {
  sl_title : string;
  sl_link : string
}.

Record SearchHit : Type := mk_hit {
  hit_query : string;
  hit_title : string;
  hit_link : string;
  hit_sitelinks : list Sitelink
}.

Definition sitelink_to_py (s : Sitelink) : pyval :=
  PDict [("title", PStr (sl_title s)); ("link", PStr (sl_link s))].

Definition hit_to_py (h : SearchHit) : pyval :=
  PDict [("query", PStr (hit_query h)); ("title", PStr (hit_title h));
         ("link", PStr (hit_link h));
         ("sitelinks", PList (map sitelink_to_py (hit_sitelinks h)))].

Definition hits_to_py (hits : list SearchHit) : pyval :=
  PDict [("organic_results", PList (map hit_to_py hits))].

(** The hit that [bing_search] builds from one item of [webPages.value]. *)
Definition hit_of_item (query : pyval) (item : pydict) : pyval :=
  PDict [("query", query);
         ("title", match Py.lookup "name" item with
                   | Some t => t
                   | None => PStr "No Title"
                   end);
         ("link", match Py.lookup "url" item with
                  | Some l => l
                  | None => PStr "#"
                  end);
         ("sitelinks", PList [])].

(** The shape of a hit record: the four keys, sitelinks empty. *)
Definition is_hit (query v : pyval) : Prop :=
  exists title link,
    v = PDict [("query", query); ("title", title);
               ("link", link); ("sitelinks", PList [])].

(** The two shapes of the dictionary that [bing_search] returns. *)
Definition is_hits_dict (query v : pyval) : Prop :=
  exists hits,
    v = PDict [("organic_results", PList hits)] /\ Forall (is_hit query) hits.

Definition is_error_dict (v : pyval) : Prop :=
  exists msg, v = PDict [("error", PStr msg)].

Definition divider : string := "----------------------------------------".

Definition sitelink_line (s : Sitelink) : string :=
  "    - " ++ sl_title s ++ ": " ++ sl_link s.

Definition head_lines (h : SearchHit) : list string :=
  ["Query: " ++ hit_query h; "Title: " ++ hit_title h; "Link: " ++ hit_link h].

(** The lines of a block as the specification words them: the three
    head lines, then [Sitelinks: None] or one indented line per
    sitelink, then the divider. *)
Definition spec_block_lines (h : SearchHit) : list string :=
  head_lines h
  ++ match hit_sitelinks h with
     | [] => ["Sitelinks: None"]
     | sls => map sitelink_line sls
     end
  ++ [divider].

Definition spec_render (hits : list SearchHit) : string :=
  Py.join Py.nl (map (fun h => Py.join Py.nl (spec_block_lines h)) hits).

(** The lines of a block as the source writes them: a non-empty
    sitelink list is introduced by a [Sitelinks:] line of its own. *)
Definition block_lines (h : SearchHit) : list string :=
  head_lines h
  ++ match hit_sitelinks h with
     | [] => ["Sitelinks: None"]
     | sls => "Sitelinks:" :: map sitelink_line sls
     end
  ++ [divider].

Definition render_hits (hits : list SearchHit) : string :=
  Py.join Py.nl (map (fun h => Py.join Py.nl (block_lines h)) hits).

(** ** A concrete [str()] and a concrete network, for the examples *)

(** [repr] and [str] on the value universe.  Integers, booleans, [None]
    and strings are rendered as CPython does; a string inside a list or
    dict is quoted with apostrophes and not escaped. *)
Fixpoint py_repr (v : pyval) : string :=
  match v with
  | PNone => "None"
  | PBool true => "True"
  | PBool false => "False"
  | PInt z => Py.str_of_Z z
  | PStr s => "'" ++ s ++ "'"
  | PList l => "[" ++ Py.join ", " (map py_repr l) ++ "]"
  | PDict d =>
      "{" ++ Py.join ", "
               (map (fun kv => match kv with
                               | (k, x) => "'" ++ k ++ "': " ++ py_repr x
                               end) d)
      ++ "}"
  end.

Definition str_builtin (v : pyval) : string :=
  match v with
  | PStr s => s
  | _ => py_repr v
  end.

Definition sample_url : string := "https://api.example/v7.0/search".

Definition json_ok (body : pyval) : response :=
  mk_response 200 "OK" sample_url (inr body).

(** The answers of the stub endpoint to the queries "ab" and "nothing". *)
Definition items_ab : list pydict :=
  [[("name", PStr "A"); ("url", PStr "http://a")];
   [("name", PStr "B"); ("url", PStr "http://b")]].

Definition web_ab : pydict := [("value", PList (map PDict items_ab))].

Definition body_ab : pydict := [("webPages", PDict web_ab)].

Definition response_ab : response := json_ok (PDict body_ab).

Definition body_nothing : pydict := [("_type", PStr "SearchResponse")].

Definition response_nothing : response := json_ok (PDict body_nothing).

(** A stub endpoint keyed on the [q] parameter. *)
Definition sample_net (rq : request) : reply :=
  match Py.lookup "q" (req_params rq) with
  | Some (PStr "ab") => inr response_ab
  | Some (PStr "bare") =>
      inr (json_ok (PDict [("webPages", PDict [("value", PList [PDict []])])]))
  | Some (PStr "nothing") => inr response_nothing
  | Some (PStr "null") => inr (json_ok (PDict [("webPages", PNone)]))
  | Some (PStr "denied") =>
      inr (mk_response 401 "Unauthorized" sample_url (inr (PDict [])))
  | Some (PStr "down") =>
      inl (mk_exn RequestException "connection refused")
  | Some (PStr "garbled") =>
      inr (mk_response 200 "OK" sample_url
             (inl (mk_exn RequestException
                          "Expecting value: line 1 column 1 (char 0)")))
  | _ => inr (json_ok (PDict [("webPages", PDict [("value", PList [])])]))
  end.

Definition sample_agent : Agent := init "TestBingAgent" "KEY" sample_url.

Definition sample_world : World := mk_world sample_agent [].

Definition request_of (queries : list string) : pydict :=
  [("queries", PList (map PStr queries)); ("location", PStr "us")].

(** A hit that carries one sitelink, and the two hits of the query "ab". *)
Definition hit_with_sitelink : SearchHit :=
  mk_hit "q" "t" "l" [mk_sitelink "a" "b"].

Definition hits_ab : list SearchHit :=
  [mk_hit "ab" "A" "http://a" []; mk_hit "ab" "B" "http://b" []].

Definition response_denied : response :=
  mk_response 401 "Unauthorized" sample_url (inr (PDict [])).

Definition response_garbled : response :=
  mk_response 200 "OK" sample_url
    (inl (mk_exn RequestException
                 "Expecting value: line 1 column 1 (char 0)")).

(** An answer whose second item is a number. *)
Definition web_mixed : pydict :=
  [("value", PList [PDict [("name", PStr "A"); ("url", PStr "http://a")];
                    PInt 5])].

Definition body_mixed : pydict := [("webPages", PDict web_mixed)].

(** The two bytes of the UTF-8 encoding of U+00E9, one code point. *)
Definition e_acute : string :=
  String (ascii_of_nat 195) (String (ascii_of_nat 169) EmptyString).

(** A second stub: it answers "ab" as the first one does, "mixed" with
    the malformed array, and fails on every other query. *)
Definition other_net (rq : request) : reply :=
  match Py.lookup "q" (req_params rq) with
  | Some (PStr "ab") => inr response_ab
  | Some (PStr "mixed") => inr (json_ok (PDict body_mixed))
  | _ => inl (mk_exn RequestException "connection refused")
  end.

(** ** Vocabulary of the further properties *)

(** The title and the link that [bing_search] reads off an item. *)
Definition item_title (item : pydict) : pyval :=
  match Py.lookup "name" item with
  | Some t => t
  | None => PStr "No Title"
  end.

Definition item_link (item : pydict) : pyval :=
  match Py.lookup "url" item with
  | Some l => l
  | None => PStr "#"
  end.

(** A block without sitelinks, for a query, a title and a link. *)
Definition plain_block (py_str : pyval -> string) (query : pyval)
           (tl : pyval * pyval) : string :=
  "Query: " ++ py_str query ++ Py.nl ++ "Title: " ++ py_str (fst tl)
  ++ Py.nl ++ "Link: " ++ py_str (snd tl) ++ Py.nl ++ "Sitelinks: None"
  ++ Py.nl ++ divider.

(** [d.get(k, default)] on a dictionary. *)
Definition get_or (d : pydict) (k : string) (default : pyval) : pyval :=
  match Py.lookup k d with
  | Some v => v
  | None => default
  end.

(** The [sitelinks] key is absent, or bound to a falsy value. *)
Definition no_sitelinks (d : pydict) : bool :=
  negb (Py.truthy (get_or d "sitelinks" (PList []))).

Definition is_dict (v : pyval) : bool :=
  match v with
  | PDict _ => true
  | _ => false
  end.

(** [None], a boolean or a number: a value that is neither a container
    nor iterable. *)
Definition is_scalar (v : pyval) : bool :=
  match v with
  | PNone | PBool _ | PInt _ => true
  | _ => false
  end.

(** ** Basic facts about the runtime *)

Lemma rmap_length {A B} (f : A -> res B) (xs : list A) (ys : list B) :
  rmap f xs = inr ys -> length ys = length xs.
Proof.
  revert ys; induction xs as [|x xs IH]; intros ys; simpl.
  - intros H; inversion H; reflexivity.
  - destruct (f x) as [e|y]; simpl; [discriminate|].
    destruct (rmap f xs) as [e|ys']; simpl; [discriminate|].
    intros H; inversion H; subst; simpl.
    now rewrite (IH ys' eq_refl).
Qed.

Lemma rmap_total {A B} (f : A -> res B) (g : A -> B) (xs : list A) :
  (forall x, In x xs -> f x = inr (g x)) -> rmap f xs = inr (map g xs).
Proof.
  induction xs as [|x xs IH]; intros H; simpl; [reflexivity|].
  rewrite (H x (or_introl eq_refl)); simpl.
  rewrite IH by (intros y Hy; apply H; now right).
  reflexivity.
Qed.

Lemma rmap_map {A B C} (f : B -> res C) (h : A -> B) (xs : list A) :
  rmap f (map h xs) = rmap (fun x => f (h x)) xs.
Proof.
  induction xs as [|x xs IH]; simpl; [reflexivity|].
  now rewrite IH.
Qed.

Lemma raise_for_status_ok (r : response) :
  (status_code r < 400 \/ 600 <= status_code r)%Z ->
  raise_for_status r = inr tt.
Proof.
  intros H; unfold raise_for_status.
  destruct (400 <=? status_code r)%Z eqn:E1;
    destruct (status_code r <? 500)%Z eqn:E2;
    destruct (500 <=? status_code r)%Z eqn:E3;
    destruct (status_code r <? 600)%Z eqn:E4; simpl; try reflexivity; lia.
Qed.

Lemma raise_for_status_error (r : response) :
  (400 <= status_code r < 600)%Z ->
  exists m, raise_for_status r = inl (mk_exn HTTPError m).
Proof.
  intros H; unfold raise_for_status.
  destruct (400 <=? status_code r)%Z eqn:E1;
    destruct (status_code r <? 500)%Z eqn:E2;
    destruct (500 <=? status_code r)%Z eqn:E3;
    destruct (status_code r <? 600)%Z eqn:E4; simpl;
    try (eexists; reflexivity); lia.
Qed.

(** ** [bing_search] *)

Section BingSearch.

Variable net : request -> reply.

(** One call: the value returned is [outcome], the agent is left as
    it was and exactly one request is added to the log. *)
Lemma bing_search_spec (query location : pyval) (w : World) :
  bing_search net query location w =
    (inr (outcome net (self w) query location),
     mk_world (self w)
              (calls w ++ [the_request (self w) query location])).
Proof.
  unfold bing_search, outcome, fetch, bind, get_self, try_except,
    requests_get, lift, the_request; simpl.
  destruct (net _) as [e|r]; simpl.
  - unfold bing_search_handler, error_dict, ret.
    destruct (exn_cls e); reflexivity.
  - destruct (raise_for_status r) as [e|[]]; simpl.
    + unfold bing_search_handler, error_dict, ret.
      destruct (exn_cls e); reflexivity.
    + destruct (json_body r) as [e|results]; simpl.
      * unfold bing_search_handler, error_dict, ret.
        destruct (exn_cls e); reflexivity.
      * destruct (normalize query results) as [e|v]; simpl.
        -- unfold bing_search_handler, error_dict, ret.
           destruct (exn_cls e); reflexivity.
        -- reflexivity.
Qed.

End BingSearch.


(** ** The worker pool *)

Lemma as_completed_app {A} (futures : list A) (o1 o2 : list nat) :
  as_completed futures (o1 ++ o2)%list
  = (as_completed futures o1 ++ as_completed futures o2)%list.
Proof.
  induction o1 as [|i o1 IH]; simpl; [reflexivity|].
  destruct (nth_error futures i); simpl; now rewrite IH.
Qed.

(** Completion in submission order yields the futures as submitted. *)
Lemma as_completed_seq {A} (done futures : list A) :
  as_completed (done ++ futures)%list (seq (length done) (length futures))
  = futures.
Proof.
  revert done; induction futures as [|f futures IH]; intros done; simpl.
  - reflexivity.
  - rewrite nth_error_app2 by lia.
    rewrite Nat.sub_diag; simpl.
    replace (done ++ f :: futures)%list with ((done ++ [f]) ++ futures)%list
      by (now rewrite <- app_assoc).
    replace (S (length done)) with (length (done ++ [f])%list)
      by (rewrite length_app; simpl; lia).
    now rewrite IH.
Qed.

(** Reordering the completions reorders what is yielded. *)
Lemma as_completed_perm {A} (futures : list A) (o1 o2 : list nat) :
  Permutation o1 o2 ->
  Permutation (as_completed futures o1) (as_completed futures o2).
Proof.
  induction 1 as [|i o1 o2 _ IH|i j o|o1 o2 o3 _ IH1 _ IH2]; simpl.
  - constructor.
  - destruct (nth_error futures i); [now constructor | assumption].
  - destruct (nth_error futures i), (nth_error futures j);
      try apply Permutation_refl; try constructor; apply Permutation_refl.
  - eapply Permutation_trans; eassumption.
Qed.

(** Whatever the completion order, every future is yielded once. *)
Lemma as_completed_all {A} (futures : list A) (order : list nat) :
  Permutation order (seq 0 (length futures)) ->
  Permutation (as_completed futures order) futures.
Proof.
  intros H.
  eapply Permutation_trans; [apply as_completed_perm, H|].
  pose proof (as_completed_seq [] futures) as Hs; simpl in Hs.
  rewrite Hs. apply Permutation_refl.
Qed.

Section ExecuteTool.

Variable net : request -> reply.
Variable py_str : pyval -> string.

(** Submitting the batch: one call per query, logged in submission
    order; each future holds the value its call returned. *)
Lemma submit_all_spec (qs : list pyval) (loc : pyval) (w : World) :
  submit_all net qs loc w =
    (inr (map (fun q => (q, inr (outcome net (self w) q loc))) qs),
     mk_world (self w)
              (calls w ++ map (fun q => the_request (self w) q loc) qs)).
Proof.
  unfold submit_all.
  revert w; induction qs as [|q qs IH]; intros w; simpl.
  - unfold ret. rewrite app_nil_r. now destruct w.
  - unfold bind at 1. unfold bind at 1. unfold capture.
    rewrite bing_search_spec. unfold ret at 1.
    unfold bind at 1. rewrite IH; simpl.
    unfold ret. rewrite <- app_assoc. reflexivity.
Qed.

(** A batch with a non-empty list of queries: the report joins the
    renderings of the futures in completion order, and the log grows
    by one request per query. *)
Lemma execute_tool_spec (order : list nat) (tr : pydict) (state : pyval)
      (w : World) (qs : list pyval) :
  Py.lookup "queries" tr = Some (PList qs) -> qs <> [] ->
  let loc := location_of (self w) tr in
  execute_tool net py_str order tr state w =
    (inr (Py.join Py.nl
            (search_results_list py_str order
               (map (fun q => (q, inr (outcome net (self w) q loc))) qs))),
     mk_world (self w)
              (calls w ++ map (fun q => the_request (self w) q loc) qs)).
Proof.
  intros Hq Hne loc.
  unfold execute_tool, bind, get_self. rewrite Hq.
  destruct qs as [|q qs]; [contradiction|].
  cbn [Py.truthy negb Py.iter lift ok].
  rewrite submit_all_spec. reflexivity.
Qed.

End ExecuteTool.


(** ** Normalisation *)

Lemma rmap_Forall {A B} (f : A -> res B) (P : B -> Prop) (xs : list A)
      (ys : list B) :
  (forall x y, f x = inr y -> P y) -> rmap f xs = inr ys -> Forall P ys.
Proof.
  intros Hf; revert ys; induction xs as [|x xs IH]; intros ys; simpl.
  - intros H; inversion H; constructor.
  - destruct (f x) as [e|y] eqn:Ey; simpl; [discriminate|].
    destruct (rmap f xs) as [e|ys'] eqn:Eys; simpl; [discriminate|].
    intros H; inversion H; subst. constructor; eauto.
Qed.

Lemma simplify_item_dict (query : pyval) (item : pydict) :
  simplify_item query (PDict item) = inr (hit_of_item query item).
Proof.
  unfold simplify_item, hit_of_item; simpl.
  destruct (Py.lookup "name" item); simpl;
    destruct (Py.lookup "url" item); reflexivity.
Qed.

Lemma simplify_item_is_hit (query item v : pyval) :
  simplify_item query item = inr v -> is_hit query v.
Proof.
  unfold simplify_item.
  destruct (Py.get item "name" _) as [e|title]; simpl; [discriminate|].
  destruct (Py.get item "url" _) as [e|link]; simpl; [discriminate|].
  intros H; inversion H. now exists title, link.
Qed.

(** Whatever the decoded body is, normalisation raises or returns a
    dictionary of hit records under the single key [organic_results]. *)
Lemma normalize_shape (query results v : pyval) :
  normalize query results = inr v -> is_hits_dict query v.
Proof.
  unfold normalize.
  destruct (Py.contains "webPages" results) as [e|has_web]; simpl;
    [discriminate|].
  destruct (if has_web
            then rbind (Py.getitem results "webPages")
                       (fun web => Py.contains "value" web)
            else ok false) as [e|has_value]; simpl; [discriminate|].
  destruct has_value.
  - destruct (Py.getitem results "webPages") as [e|web]; simpl;
      [discriminate|].
    destruct (Py.getitem web "value") as [e|value]; simpl; [discriminate|].
    destruct (Py.iter value) as [e|items]; simpl; [discriminate|].
    destruct (rmap (simplify_item query) items) as [e|hits] eqn:Eh; simpl;
      [discriminate|].
    intros H; inversion H. exists hits; split; [reflexivity|].
    eapply rmap_Forall; [|exact Eh].
    intros x y; apply simplify_item_is_hit.
  - intros H; inversion H. exists []; split; [reflexivity|constructor].
Qed.

Lemma error_dict_shape (e : pyexn) : is_error_dict (error_dict e).
Proof.
  unfold error_dict, is_error_dict.
  destruct (exn_cls e); eexists; reflexivity.
Qed.

Section Fetch.

Variable net : request -> reply.

Lemma outcome_shape (a : Agent) (query loc : pyval) :
  is_hits_dict query (outcome net a query loc)
  \/ is_error_dict (outcome net a query loc).
Proof.
  unfold outcome, fetch.
  destruct (net _) as [e|r]; simpl; [right; apply error_dict_shape|].
  destruct (raise_for_status r) as [e|[]]; simpl;
    [right; apply error_dict_shape|].
  destruct (json_body r) as [e|results]; simpl;
    [right; apply error_dict_shape|].
  destruct (normalize query results) as [e|v] eqn:En;
    [right; apply error_dict_shape|].
  left. eapply normalize_shape; exact En.
Qed.

(** A successful answer: the outcome is the normalised body. *)
Lemma outcome_success (a : Agent) (query loc : pyval) (r : response)
      (results : pyval) :
  net (the_request a query loc) = inr r ->
  (status_code r < 400 \/ 600 <= status_code r)%Z ->
  json_body r = inr results ->
  outcome net a query loc
  = match normalize query results with
    | inr v => v
    | inl e => error_dict e
    end.
Proof.
  intros Hn Hs Hb. unfold outcome, fetch.
  rewrite Hn; simpl. rewrite (raise_for_status_ok r Hs); simpl.
  rewrite Hb; reflexivity.
Qed.

(** C10: for every query and location, bing_search returns normally (no
    exception reaches its caller) and the value returned is a dictionary
    with exactly one key: either [organic_results], bound to a list of hit
    records, or [error], bound to a message string. *)
Theorem bing_search_total (query loc : pyval) (w : World) :
  exists d : pydict,
    fst (bing_search net query loc w) = inr (PDict d)
    /\ ((exists hits, d = [("organic_results", PList hits)]
                      /\ Forall (is_hit query) hits)
        \/ (exists msg, d = [("error", PStr msg)]))
    /\ xorb (Py.has_key "organic_results" d) (Py.has_key "error" d) = true
    /\ length (Py.keys d) = 1.
Proof.
  rewrite bing_search_spec; simpl.
  destruct (outcome_shape (self w) query loc) as [[hits [Hv Hh]]|[msg Hv]];
    rewrite Hv.
  - eexists; split; [reflexivity|]. split; [left; eauto|]. now split.
  - eexists; split; [reflexivity|]. split; [right; eauto|]. now split.
Qed.

End Fetch.


(** ** Rendering *)

Lemma str_app_assoc (a b c : string) : (a ++ b) ++ c = a ++ (b ++ c).
Proof.
  induction a as [|x a IH]; simpl; [reflexivity|now rewrite IH].
Qed.

Lemma join_cons (sep x y : string) (l : list string) :
  Py.join sep (x :: y :: l) = x ++ sep ++ Py.join sep (y :: l).
Proof. reflexivity. Qed.

Lemma join_snoc (sep d : string) (l : list string) :
  l <> [] -> Py.join sep (l ++ [d]) = Py.join sep l ++ sep ++ d.
Proof.
  induction l as [|x l IH]; intros Hne; [contradiction|].
  destruct l as [|y l]; [reflexivity|].
  specialize (IH ltac:(discriminate)).
  cbn [app] in *.
  rewrite (join_cons sep x y (l ++ [d])), IH, (join_cons sep x y l).
  now rewrite !str_app_assoc.
Qed.

Lemma divider_repeat : Py.repeat_str "-" 40 = divider.
Proof. reflexivity. Qed.

Section Rendering.

Variable py_str : pyval -> string.

(** An answer that carries only an [error] key has no
    [organic_results]: nothing is rendered for it. *)
Lemma format_error_dict (v : pyval) :
  is_error_dict v -> format_search_results py_str v = inr "".
Proof.
  intros [msg ->]. reflexivity.
Qed.

Lemma format_result_hit (query v : pyval) :
  is_hit query v -> exists s, format_result py_str v = inr s.
Proof.
  intros (title & link & ->). eexists; reflexivity.
Qed.

Lemma rmap_exists {A B} (f : A -> res B) (P : A -> Prop) (xs : list A) :
  (forall x, P x -> exists y, f x = inr y) ->
  Forall P xs -> exists ys, rmap f xs = inr ys.
Proof.
  intros Hf; induction 1 as [|x xs Hx _ [ys IH]]; simpl.
  - now exists [].
  - destruct (Hf x Hx) as [y Hy]. rewrite Hy, IH; simpl.
    now exists (y :: ys).
Qed.

(** A dictionary of hit records is always rendered: the formatter does
    not raise on what [bing_search] returns. *)
Lemma format_hits_dict (query v : pyval) :
  is_hits_dict query v -> exists s, format_search_results py_str v = inr s.
Proof.
  intros (hits & -> & Hh).
  unfold format_search_results; simpl.
  destruct (rmap_exists (format_result py_str) (is_hit query) hits)
    as [ys Hys]; [apply format_result_hit | exact Hh |].
  rewrite Hys; simpl. eexists; reflexivity.
Qed.

Lemma format_empty_hits :
  format_search_results py_str (PDict [("organic_results", PList [])])
  = inr "".
Proof. reflexivity. Qed.

Hypothesis py_str_str : forall s, py_str (PStr s) = s.

Lemma format_sitelink_line (s : Sitelink) :
  format_sitelink py_str (sitelink_to_py s) = inr (sitelink_line s).
Proof.
  unfold format_sitelink, sitelink_to_py, sitelink_line; simpl.
  now rewrite !py_str_str.
Qed.

Lemma format_result_block (h : SearchHit) :
  format_result py_str (hit_to_py h) = inr (Py.join Py.nl (block_lines h)).
Proof.
  unfold format_result, hit_to_py, block_lines, head_lines.
  cbn [Py.get Py.lookup String.eqb Ascii.eqb Bool.eqb rbind ok].
  rewrite !py_str_str.
  destruct (hit_sitelinks h) as [|s sls] eqn:Es.
  - cbn [map Py.truthy rbind ok]. rewrite divider_repeat.
    cbn [app]. rewrite !join_cons.
    f_equal. now rewrite !str_app_assoc.
  - cbn [map Py.truthy Py.iter rbind ok].
    change (sitelink_to_py s :: map sitelink_to_py sls)
      with (map sitelink_to_py (s :: sls)).
    rewrite rmap_map.
    rewrite (rmap_total _ sitelink_line)
      by (intros; apply format_sitelink_line).
    cbn [rbind ok]. rewrite divider_repeat.
    f_equal. cbn [app].
    rewrite !join_cons.
    rewrite (app_comm_cons (map sitelink_line sls) [divider]).
    rewrite join_snoc by discriminate.
    cbn [map]. unfold ok.
    now rewrite !str_app_assoc.
Qed.

End Rendering.


(** ** The entries of the report *)

Section Report.

Variable net : request -> reply.
Variable py_str : pyval -> string.

(** The formatter never raises on the value [bing_search] returned, so
    the [except] branch of [execute_tool] is not taken: the entry of a
    query is always what [format_search_results] returns. *)
Lemma entry_is_formatted (a : Agent) (loc query : pyval) :
  format_search_results py_str (outcome net a query loc)
  = inr (entry net py_str a loc query).
Proof.
  unfold entry, render_outcome; simpl.
  destruct (outcome_shape net a query loc) as [H|H].
  - destruct (format_hits_dict py_str query _ H) as [s Hs].
    now rewrite Hs.
  - now rewrite (format_error_dict py_str _ H).
Qed.

(** A failed fetch leaves an empty entry: the message stored under
    [error] is not rendered. *)
Lemma failed_fetch_entry (a : Agent) (loc query : pyval) (e : pyexn) :
  fetch net a query loc = inl e -> entry net py_str a loc query = "".
Proof.
  intros H. unfold entry, render_outcome, outcome. rewrite H; simpl.
  now rewrite (format_error_dict py_str _ (error_dict_shape e)).
Qed.

(** The report of a batch, for any completion order. *)
Lemma report_entries (order : list nat) (tr : pydict) (state : pyval)
      (w : World) (qs : list pyval) :
  Py.lookup "queries" tr = Some (PList qs) -> qs <> [] ->
  Permutation order (seq 0 (length qs)) ->
  exists entries : list string,
    fst (execute_tool net py_str order tr state w)
    = inr (Py.join Py.nl entries)
    /\ Permutation entries
         (map (entry net py_str (self w) (location_of (self w) tr)) qs).
Proof.
  intros Hq Hne Hp.
  rewrite (execute_tool_spec net py_str order tr state w qs Hq Hne); simpl.
  eexists; split; [reflexivity|].
  unfold search_results_list.
  set (futures := map _ qs).
  assert (Hlen : length futures = length qs) by (unfold futures; apply length_map).
  rewrite <- Hlen in Hp.
  eapply Permutation_trans;
    [apply Permutation_map, (as_completed_all futures order Hp)|].
  unfold futures. rewrite map_map. apply Permutation_refl.
Qed.

End Report.

(** An entry depends on the network only through the answer to the
    query's own request. *)
Lemma entry_local (net1 net2 : request -> reply) (py_str : pyval -> string)
      (a : Agent) (loc query : pyval) :
  net1 (the_request a query loc) = net2 (the_request a query loc) ->
  entry net1 py_str a loc query = entry net2 py_str a loc query.
Proof.
  intros H. unfold entry, outcome, fetch. now rewrite H.
Qed.

(** ** The claims about [execute_tool] *)

(** C1: on the stub endpoint, the query "denied" is answered with HTTP
    401.  [bing_search] catches the error and returns it under the key
    [error]; the report of the batch made of that query is the empty
    string, and in a batch with the query "ab" the failed query
    contributes an empty entry while the two blocks of "ab" are rendered
    as they are alone.  No line [Error for query 'denied': ...] appears. *)
Theorem failed_query_has_no_error_line :
  fst (bing_search sample_net (PStr "denied") (PStr "us") sample_world)
  = inr (PDict [("error",
                 PStr ("HTTP error occurred: 401 Client Error: Unauthorized"
                       ++ " for url: https://api.example/v7.0/search"))])
  /\ fst (execute_tool sample_net str_builtin [0]
                       (request_of ["denied"]) PNone sample_world)
     = inr ""
  /\ fst (execute_tool sample_net str_builtin [0; 1]
                       (request_of ["denied"; "ab"]) PNone sample_world)
     = inr ("" ++ Py.nl
            ++ entry sample_net str_builtin sample_agent (PStr "us") (PStr "ab"))
  /\ fst (execute_tool sample_net str_builtin [0]
                       (request_of ["ab"]) PNone sample_world)
     = inr (entry sample_net str_builtin sample_agent (PStr "us") (PStr "ab")).
Proof.
  repeat split; vm_compute; reflexivity.
Qed.

(** C2: for every request whose [queries] field is a non-empty list and
    every order in which the submitted calls complete, execute_tool
    returns the newline-join of a list of entries that has exactly one
    entry per submitted query: the entries are, up to the completion
    order, the renderings of the outcomes of the input queries. *)
Theorem execute_tool_one_entry_per_query
        (net : request -> reply) (py_str : pyval -> string)
        (order : list nat) (tr : pydict) (state : pyval) (w : World)
        (qs : list pyval) :
  Py.lookup "queries" tr = Some (PList qs) -> qs <> [] ->
  Permutation order (seq 0 (length qs)) ->
  exists entries : list string,
    fst (execute_tool net py_str order tr state w)
    = inr (Py.join Py.nl entries)
    /\ length entries = length qs
    /\ Permutation entries
         (map (fun q => render_outcome py_str q
                          (inr (outcome net (self w) q
                                        (location_of (self w) tr)))) qs).
Proof.
  intros Hq Hne Hp.
  destruct (report_entries net py_str order tr state w qs Hq Hne Hp)
    as (entries & Hr & Hperm).
  exists entries. split; [exact Hr|]. split; [|exact Hperm].
  rewrite (Permutation_length Hperm). apply length_map.
Qed.

(** C3: when the [queries] field is absent or an empty list,
    execute_tool raises ValueError and leaves the world as it found it:
    no outbound call is logged.  For a request whose [queries] field is a
    list, this is the only exception: a non-empty list always yields a
    report. *)
Theorem execute_tool_missing_queries
        (net : request -> reply) (py_str : pyval -> string)
        (order : list nat) (tr : pydict) (state : pyval) (w : World) :
  queries_is_list tr = true ->
  (queries_missing tr = true ->
   execute_tool net py_str order tr state w
   = (inl (mk_exn ValueError
                  "Search queries are missing from the tool response"), w))
  /\ (queries_missing tr = false ->
      exists report, fst (execute_tool net py_str order tr state w)
                     = inr report).
Proof.
  unfold queries_is_list, queries_missing. intros Hl.
  destruct (Py.lookup "queries" tr) as [[| | | |qs|]|] eqn:Hq;
    try discriminate.
  - destruct qs as [|q qs].
    + split; [intros _|discriminate].
      unfold execute_tool, bind, get_self. rewrite Hq. reflexivity.
    + split; [discriminate|intros _].
      rewrite (execute_tool_spec net py_str order tr state w (q :: qs) Hq)
        by discriminate.
      eexists; reflexivity.
  - split; [intros _|discriminate].
    unfold execute_tool, bind, get_self. rewrite Hq. reflexivity.
Qed.

(** Outside the documented input type the guard is not the only way
    out: a [queries] field that is truthy and not iterable passes
    [if not queries] and the loop header raises TypeError, again before
    any call is made. *)
Lemma execute_tool_queries_not_iterable :
  execute_tool sample_net str_builtin [] [("queries", PInt 5)] PNone
               sample_world
  = (inl (mk_exn TypeError "'int' object is not iterable"), sample_world).
Proof. reflexivity. Qed.

(** C7: for an agent built by the constructor and a request with a
    non-empty list of queries, the calls sent are one per query, in
    submission order; every one carries the market ["us"] when the request
    has no [location] field, and the field's value when it has one. *)
Theorem execute_tool_location
        (net : request -> reply) (py_str : pyval -> string)
        (order : list nat) (tr : pydict) (state : pyval)
        (nm key ep : string) (log : list request) (qs : list pyval) :
  Py.lookup "queries" tr = Some (PList qs) -> qs <> [] ->
  let a := init nm key ep in
  let sent :=
    calls (snd (execute_tool net py_str order tr state (mk_world a log))) in
  (Py.lookup "location" tr = None ->
   sent = (log ++ map (fun q => the_request a q (PStr "us")) qs)%list)
  /\ (forall l, Py.lookup "location" tr = Some l ->
                sent = (log ++ map (fun q => the_request a q l) qs)%list).
Proof.
  intros Hq Hne a sent. subst sent.
  rewrite (execute_tool_spec net py_str order tr state _ qs Hq Hne).
  unfold location_of; simpl.
  split; [intros Hl|intros l Hl]; rewrite Hl; reflexivity.
Qed.

(** C9: execute_tool leaves every field of the agent as it was, whatever
    the request and whether it returns or raises; and what it returns
    does not depend on the calls made before: a call that follows
    another sees the same agent and gives the result it would give
    first. *)
Theorem execute_tool_keeps_agent
        (net : request -> reply) (py_str : pyval -> string)
        (order : list nat) (tr : pydict) (state : pyval) (w : World) :
  self (snd (execute_tool net py_str order tr state w)) = self w
  /\ forall earlier : list request,
       fst (execute_tool net py_str order tr state (mk_world (self w) earlier))
       = fst (execute_tool net py_str order tr state w).
Proof.
  assert (H : forall w',
    self (snd (execute_tool net py_str order tr state w')) = self w'
    /\ fst (execute_tool net py_str order tr state w')
       = fst (execute_tool net py_str order tr state (mk_world (self w') []))).
  { intros w'. unfold execute_tool, bind, get_self; simpl.
    destruct (negb (Py.truthy _)); [now split|].
    unfold lift.
    destruct (Py.iter _) as [e|qs]; [now split|].
    rewrite !submit_all_spec; simpl. now split. }
  split; [apply H|].
  intros earlier.
  rewrite (proj2 (H w)), (proj2 (H (mk_world (self w) earlier))).
  reflexivity.
Qed.

(** ** The formatter and the schema *)

(** The wording of the specification and the source agree on every hit
    that has no sitelinks, which is every hit [bing_search] builds. *)
Lemma spec_block_agrees (h : SearchHit) :
  hit_sitelinks h = [] -> spec_block_lines h = block_lines h.
Proof.
  intros H. unfold spec_block_lines, block_lines. now rewrite H.
Qed.

(** C5, as amended: for every hit list, format_search_results renders
    one block per hit, in the order of the list, joined with newlines;
    a block is the lines Query, Title and Link, then the line
    [Sitelinks: None] when the hit has no sitelinks, or the line
    [Sitelinks:] followed by one indented line per sitelink when it has
    some, then the divider of 40 dashes. *)
Theorem format_search_results_blocks
        (py_str : pyval -> string) (hits : list SearchHit) :
  (forall s, py_str (PStr s) = s) ->
  format_search_results py_str (hits_to_py hits) = inr (render_hits hits)
  /\ length (map block_lines hits) = length hits.
Proof.
  intros Hs. split; [|apply length_map].
  unfold format_search_results, hits_to_py, render_hits; simpl.
  rewrite rmap_map.
  rewrite (rmap_total _ (fun h => Py.join Py.nl (block_lines h)))
    by (intros; now apply format_result_block).
  reflexivity.
Qed.

(** C6: get_guided_json returns, for every state argument and in every
    world, the same object schema and leaves the world untouched; the
    schema declares the two properties [queries] (an array whose items
    are strings) and [location] (a string), lists both as required and
    disallows additional properties. *)
Theorem get_guided_json_fixed :
  exists schema props queries_schema items_schema location_schema : pydict,
    (forall (state : pyval) (w : World),
        get_guided_json state w = (inr (PDict schema), w))
    /\ Py.lookup "type" schema = Some (PStr "object")
    /\ Py.lookup "properties" schema = Some (PDict props)
    /\ Py.keys props = ["queries"; "location"]
    /\ Py.lookup "queries" props = Some (PDict queries_schema)
    /\ Py.lookup "type" queries_schema = Some (PStr "array")
    /\ Py.lookup "items" queries_schema = Some (PDict items_schema)
    /\ Py.lookup "type" items_schema = Some (PStr "string")
    /\ Py.lookup "location" props = Some (PDict location_schema)
    /\ Py.lookup "type" location_schema = Some (PStr "string")
    /\ Py.lookup "required" schema
       = Some (PList [PStr "queries"; PStr "location"])
    /\ Py.lookup "additionalProperties" schema = Some (PBool false).
Proof.
  do 5 eexists.
  split; [intros state w; unfold get_guided_json, ret; reflexivity|].
  repeat split; reflexivity.
Qed.

(** ** The theorems at concrete inputs *)

(** C5, as the specification words it, fails on a hit with a sitelink:
    the source puts a [Sitelinks:] line before the indented line. *)
Lemma spec_render_misses_sitelinks_line :
  format_search_results str_builtin (hits_to_py [hit_with_sitelink])
  = inr ("Query: q" ++ Py.nl ++ "Title: t" ++ Py.nl ++ "Link: l" ++ Py.nl
         ++ "Sitelinks:" ++ Py.nl ++ "    - a: b" ++ Py.nl ++ divider)
  /\ spec_render [hit_with_sitelink]
     = "Query: q" ++ Py.nl ++ "Title: t" ++ Py.nl ++ "Link: l" ++ Py.nl
       ++ "    - a: b" ++ Py.nl ++ divider
  /\ format_search_results str_builtin (hits_to_py [hit_with_sitelink])
     <> inr (spec_render [hit_with_sitelink]).
Proof.
  split; [reflexivity|]. split; [reflexivity|].
  vm_compute. discriminate.
Qed.

Lemma format_search_results_blocks_witness :
  (forall s, str_builtin (PStr s) = s)
  /\ format_search_results str_builtin (hits_to_py hits_ab)
     = inr (render_hits hits_ab)
  /\ format_search_results str_builtin (hits_to_py [hit_with_sitelink])
     = inr (render_hits [hit_with_sitelink]).
Proof.
  split; [reflexivity|].
  split.
  - exact (proj1 (format_search_results_blocks str_builtin hits_ab
                    (fun s => eq_refl))).
  - exact (proj1 (format_search_results_blocks str_builtin [hit_with_sitelink]
                    (fun s => eq_refl))).
Defined.

Lemma execute_tool_one_entry_per_query_witness :
  exists entries : list string,
    fst (execute_tool sample_net str_builtin [1; 0]
                      (request_of ["ab"; "denied"]) PNone sample_world)
    = inr (Py.join Py.nl entries)
    /\ length entries = 2
    /\ Permutation entries
         (map (fun q => render_outcome str_builtin q
                          (inr (outcome sample_net sample_agent q (PStr "us"))))
              [PStr "ab"; PStr "denied"]).
Proof.
  apply (execute_tool_one_entry_per_query sample_net str_builtin [1; 0]
           (request_of ["ab"; "denied"]) PNone sample_world
           [PStr "ab"; PStr "denied"]).
  - reflexivity.
  - discriminate.
  - apply perm_swap.
Defined.

Lemma execute_tool_missing_queries_witness :
  execute_tool sample_net str_builtin [] [("location", PStr "gb")] PNone
               sample_world
  = (inl (mk_exn ValueError
                 "Search queries are missing from the tool response"),
     sample_world)
  /\ execute_tool sample_net str_builtin []
                  [("queries", PList []); ("location", PStr "gb")] PNone
                  sample_world
     = (inl (mk_exn ValueError
                    "Search queries are missing from the tool response"),
        sample_world)
  /\ exists report,
       fst (execute_tool sample_net str_builtin [0] (request_of ["down"])
                         PNone sample_world)
       = inr report.
Proof.
  split; [|split].
  - exact (proj1 (execute_tool_missing_queries sample_net str_builtin []
                    [("location", PStr "gb")] PNone sample_world eq_refl)
                 eq_refl).
  - exact (proj1 (execute_tool_missing_queries sample_net str_builtin []
                    [("queries", PList []); ("location", PStr "gb")] PNone
                    sample_world eq_refl)
                 eq_refl).
  - exact (proj2 (execute_tool_missing_queries sample_net str_builtin [0]
                    (request_of ["down"]) PNone sample_world eq_refl)
                 eq_refl).
Defined.

Lemma execute_tool_location_witness :
  calls (snd (execute_tool sample_net str_builtin [0; 1]
                           [("queries", PList [PStr "ab"; PStr "bare"])]
                           PNone sample_world))
  = [the_request sample_agent (PStr "ab") (PStr "us");
     the_request sample_agent (PStr "bare") (PStr "us")]
  /\ calls (snd (execute_tool sample_net str_builtin [0; 1]
                              [("queries", PList [PStr "ab"; PStr "bare"]);
                               ("location", PStr "nl")]
                              PNone sample_world))
     = [the_request sample_agent (PStr "ab") (PStr "nl");
        the_request sample_agent (PStr "bare") (PStr "nl")].
Proof.
  split.
  - exact (proj1 (execute_tool_location sample_net str_builtin [0; 1]
                    [("queries", PList [PStr "ab"; PStr "bare"])] PNone
                    "TestBingAgent" "KEY" sample_url
                    [] [PStr "ab"; PStr "bare"] eq_refl
                    ltac:(discriminate))
                 eq_refl).
  - exact (proj2 (execute_tool_location sample_net str_builtin [0; 1]
                    [("queries", PList [PStr "ab"; PStr "bare"]);
                     ("location", PStr "nl")] PNone
                    "TestBingAgent" "KEY" sample_url
                    [] [PStr "ab"; PStr "bare"] eq_refl
                    ltac:(discriminate))
                 (PStr "nl") eq_refl).
Defined.


(** ** Further properties of [bing_search] *)

Lemma render_error_dict (py_str : pyval -> string) (query : pyval)
      (msg : string) :
  render_outcome py_str query (inr (PDict [("error", PStr msg)])) = "".
Proof. reflexivity. Qed.

Lemma rmap_first_failure {A B} (f : A -> res B) (xs : list A) (x : A)
      (e : pyexn) :
  In x xs -> f x = inl e ->
  exists x' e', In x' xs /\ f x' = inl e' /\ rmap f xs = inl e'.
Proof.
  induction xs as [|y ys IH]; intros Hin Hf; [contradiction|].
  simpl. destruct (f y) as [ey|b] eqn:Ey.
  - exists y, ey. split; [now left|]. split; [exact Ey|reflexivity].
  - destruct Hin as [->|Hin]; [congruence|].
    destruct (IH Hin Hf) as (x' & e' & Hin' & Hf' & Hr).
    exists x', e'. split; [now right|]. split; [exact Hf'|].
    simpl. now rewrite Hr.
Qed.

Lemma simplify_item_fails (query item : pyval) (e : pyexn) :
  simplify_item query item = inl e ->
  is_dict item = false /\ exn_cls e = AttributeError.
Proof.
  destruct item as [| | | | |d]; simpl; intros H;
    try (inversion H; now split).
  rewrite simplify_item_dict in H. discriminate.
Qed.

Section MoreBingSearch.

Variable net : request -> reply.
Variable py_str : pyval -> string.

(** What a failed [try] block leaves: the dictionary of the clause
    that catches the exception, rendered as the empty string. *)
Lemma failed_fetch_result (query loc : pyval) (w : World) (e : pyexn) :
  fetch net (self w) query loc = inl e ->
  fst (bing_search net query loc w) = inr (error_dict e).
Proof.
  intros H. rewrite bing_search_spec; simpl. unfold outcome. now rewrite H.
Qed.

(** X1: Every call of bing_search returns normally, leaves the agent as it
    was and adds exactly one request to the log, whatever the network
    answers: the request goes to the agent's endpoint, carries the key
    in the header [Ocp-Apim-Subscription-Key] and the parameters [q],
    [mkt] and [count] = 10.  There is no second attempt after a
    failure. *)
Theorem bing_search_one_call (query loc : pyval) (w : World) :
  exists v : pyval,
    bing_search net query loc w
    = (inr v,
       mk_world (self w)
         (calls w ++
          [mk_request (endpoint (self w))
             [("Ocp-Apim-Subscription-Key", PStr (api_key (self w)))]
             [("q", query); ("mkt", loc); ("count", PInt 10)]])).
Proof.
  eexists. rewrite bing_search_spec. reflexivity.
Qed.

(** X2: An answer with a 4xx or 5xx status makes bing_search return
    [{'error': "HTTP error occurred: <status> Client|Server Error:
    <reason> for url: <url>"}] without looking at the body, and that
    dictionary is rendered as the empty string. *)
Theorem http_error_status_outcome (query loc : pyval) (w : World)
        (r : response) :
  net (the_request (self w) query loc) = inr r ->
  (400 <= status_code r < 600)%Z ->
  let msg :=
    "HTTP error occurred: " ++ Py.str_of_Z (status_code r)
    ++ (if (status_code r <? 500)%Z
        then " Client Error: " else " Server Error: ")
    ++ reason r ++ " for url: " ++ resp_url r in
  fst (bing_search net query loc w) = inr (PDict [("error", PStr msg)])
  /\ render_outcome py_str query (inr (PDict [("error", PStr msg)])) = "".
Proof.
  intros Hn Hs msg. split; [|reflexivity].
  assert (Hr : raise_for_status r
               = inl (mk_exn HTTPError
                        (Py.str_of_Z (status_code r)
                         ++ (if (status_code r <? 500)%Z
                             then " Client Error: " else " Server Error: ")
                         ++ reason r ++ " for url: " ++ resp_url r))).
  { unfold raise_for_status.
    destruct (400 <=? status_code r)%Z eqn:E1;
      destruct (status_code r <? 500)%Z eqn:E2;
      destruct (500 <=? status_code r)%Z eqn:E3;
      destruct (status_code r <? 600)%Z eqn:E4; simpl;
      try reflexivity; lia. }
  rewrite (failed_fetch_result query loc w _
             ltac:(unfold fetch; rewrite Hn; simpl; rewrite Hr; reflexivity)).
  reflexivity.
Qed.

(** X3: When [requests.get] raises, or [response.json()] raises on an
    answer whose status is no error, bing_search returns an [error]
    dictionary whose text depends on the class of the exception:
    prefixed with "Request error occurred: " for a RequestException,
    with "HTTP error occurred: " for an HTTPError, and the bare text of
    the exception for any other class. *)
Theorem raised_exception_outcome (query loc : pyval) (w : World)
        (e : pyexn) :
  net (the_request (self w) query loc) = inl e
  \/ (exists r, net (the_request (self w) query loc) = inr r
                /\ (status_code r < 400 \/ 600 <= status_code r)%Z
                /\ json_body r = inl e) ->
  fst (bing_search net query loc w)
  = inr (PDict [("error",
                 PStr (match exn_cls e with
                       | HTTPError => "HTTP error occurred: " ++ exn_msg e
                       | RequestException =>
                           "Request error occurred: " ++ exn_msg e
                       | _ => exn_msg e
                       end))]).
Proof.
  intros H.
  assert (Hf : fetch net (self w) query loc = inl e).
  { unfold fetch. destruct H as [Hn|(r & Hn & Hs & Hb)]; rewrite Hn; simpl.
    - reflexivity.
    - rewrite (raise_for_status_ok r Hs); simpl. now rewrite Hb. }
  rewrite (failed_fetch_result query loc w e Hf).
  unfold error_dict. destruct (exn_cls e); reflexivity.
Qed.

(** X4: A body that is [null], a boolean or a number, or an object whose
    [webPages] member is one of these, is not treated as "no results":
    the membership test raises, and bing_search returns an [error]
    dictionary, rendered as the empty string. *)
Theorem scalar_webpages_is_error (query loc : pyval) (w : World)
        (r : response) (results : pyval) :
  net (the_request (self w) query loc) = inr r ->
  (status_code r < 400 \/ 600 <= status_code r)%Z ->
  json_body r = inr results ->
  is_scalar results = true
  \/ (exists body v, results = PDict body
                     /\ Py.lookup "webPages" body = Some v
                     /\ is_scalar v = true) ->
  exists msg,
    fst (bing_search net query loc w) = inr (PDict [("error", PStr msg)])
    /\ render_outcome py_str query (inr (PDict [("error", PStr msg)])) = "".
Proof.
  intros Hn Hs Hb Hsc.
  assert (He : exists e, normalize query results = inl e
                         /\ exn_cls e = TypeError).
  { destruct Hsc as [Hsc|(body & v & -> & Hw & Hsc)].
    - destruct results; try discriminate; eexists; split; reflexivity.
    - unfold normalize; simpl. unfold Py.has_key. rewrite Hw; simpl.
      destruct v; try discriminate; eexists; split; reflexivity. }
  destruct He as (e & He & Hc).
  rewrite (failed_fetch_result query loc w e).
  - unfold error_dict. rewrite Hc. eexists; split; reflexivity.
  - unfold fetch. rewrite Hn; simpl.
    rewrite (raise_for_status_ok r Hs); simpl. rewrite Hb; simpl. exact He.
Qed.

(** X5: One item of [webPages.value] that is not an object spoils the
    whole answer: bing_search returns an [error] dictionary and none of
    the hits, however many well-formed items the array holds. *)
Theorem non_object_item_discards_hits (query loc : pyval) (w : World)
        (r : response) (body web : pydict) (items : list pyval)
        (x : pyval) :
  net (the_request (self w) query loc) = inr r ->
  (status_code r < 400 \/ 600 <= status_code r)%Z ->
  json_body r = inr (PDict body) ->
  Py.lookup "webPages" body = Some (PDict web) ->
  Py.lookup "value" web = Some (PList items) ->
  In x items -> is_dict x = false ->
  exists msg,
    fst (bing_search net query loc w) = inr (PDict [("error", PStr msg)])
    /\ render_outcome py_str query (inr (PDict [("error", PStr msg)])) = "".
Proof.
  intros Hn Hs Hb Hw Hv Hin Hx.
  assert (Hfx : exists e, simplify_item query x = inl e).
  { destruct x; try discriminate; eexists; reflexivity. }
  destruct Hfx as [e0 Hfx].
  destruct (rmap_first_failure (simplify_item query) items x e0 Hin Hfx)
    as (x' & e & _ & Hf' & Hr).
  destruct (simplify_item_fails query x' e Hf') as [_ Hc].
  rewrite (failed_fetch_result query loc w e).
  - unfold error_dict. rewrite Hc. eexists; split; reflexivity.
  - unfold fetch. rewrite Hn; simpl.
    rewrite (raise_for_status_ok r Hs); simpl. rewrite Hb; simpl.
    unfold normalize; simpl. unfold Py.has_key. rewrite Hw; simpl.
    unfold Py.has_key. rewrite Hv; simpl. now rewrite Hr.
Qed.

End MoreBingSearch.

(** ** Further properties of the report *)

Lemma hits_are_pairs (query : pyval) (hits : list pyval) :
  Forall (is_hit query) hits ->
  exists tls : list (pyval * pyval),
    hits = map (fun tl => PDict [("query", query); ("title", fst tl);
                                 ("link", snd tl); ("sitelinks", PList [])])
               tls.
Proof.
  induction 1 as [|v hits (title & link & ->) _ [tls ->]].
  - now exists [].
  - now exists ((title, link) :: tls).
Qed.

Lemma as_completed_nth {A} (futures : list A) (order : list nat) (d : A) :
  Forall (fun i => i < length futures) order ->
  as_completed futures order = map (fun i => nth i futures d) order.
Proof.
  induction 1 as [|i order Hi _ IH]; simpl; [reflexivity|].
  destruct (nth_error futures i) as [f|] eqn:E.
  - rewrite (nth_error_nth _ _ d E). now rewrite IH.
  - apply nth_error_None in E. lia.
Qed.

(** The code points of a string, put together again, are the string. *)
Lemma code_points_join (s : string) : Py.join "" (Py.code_points s) = s.
Proof.
  induction s as [|c s IH]; [reflexivity|].
  cbn [Py.code_points].
  destruct s as [|c' s']; [reflexivity|].
  destruct (Py.code_points (String c' s')) as [|g gs] eqn:E;
    [cbn in IH; discriminate|].
  destruct (Py.is_continuation c').
  - destruct gs as [|g' gs'].
    + change (Py.join "" [g]) with g in IH. now rewrite <- IH.
    + rewrite join_cons in IH. rewrite join_cons.
      cbn [append] in *. now rewrite IH.
  - rewrite join_cons. cbn [append]. now rewrite IH.
Qed.

Section MoreReport.

Variable net : request -> reply.
Variable py_str : pyval -> string.

Lemma format_result_plain (query : pyval) (tl : pyval * pyval) :
  format_result py_str
    (PDict [("query", query); ("title", fst tl);
            ("link", snd tl); ("sitelinks", PList [])])
  = inr (plain_block py_str query tl).
Proof.
  unfold format_result, plain_block.
  cbn [Py.get Py.lookup String.eqb Ascii.eqb Bool.eqb rbind ok Py.truthy].
  rewrite divider_repeat. now rewrite !str_app_assoc.
Qed.

Lemma format_plain_hits (query : pyval) (tls : list (pyval * pyval)) :
  format_search_results py_str
    (PDict [("organic_results",
             PList (map (fun tl => PDict [("query", query); ("title", fst tl);
                                          ("link", snd tl);
                                          ("sitelinks", PList [])]) tls))])
  = inr (Py.join Py.nl (map (plain_block py_str query) tls)).
Proof.
  unfold format_search_results; simpl.
  rewrite rmap_map.
  rewrite (rmap_total _ (plain_block py_str query))
    by (intros; apply format_result_plain).
  reflexivity.
Qed.

(** X6: Whatever the network answers, the formatter accepts the value
    bing_search returns, and the entry execute_tool builds from it is a
    newline-join of blocks of the query that all end with
    [Sitelinks: None] and the divider (no block at all after a failure):
    neither the [Error for query] line of execute_tool nor the sitelink
    lines of the formatter are ever produced. *)
Theorem every_entry_is_plain_blocks (query loc : pyval) (w : World) :
  exists (v : pyval) (tls : list (pyval * pyval)),
    fst (bing_search net query loc w) = inr v
    /\ format_search_results py_str v
       = inr (Py.join Py.nl (map (plain_block py_str query) tls))
    /\ render_outcome py_str query (inr v)
       = Py.join Py.nl (map (plain_block py_str query) tls).
Proof.
  rewrite bing_search_spec; simpl.
  exists (outcome net (self w) query loc).
  destruct (outcome_shape net (self w) query loc)
    as [(hits & Hv & Hh)|(msg & Hv)]; rewrite Hv.
  - destruct (hits_are_pairs query hits Hh) as [tls ->].
    exists tls. split; [reflexivity|].
    unfold render_outcome; simpl rbind.
    rewrite format_plain_hits. now split.
  - exists []. now repeat split.
Qed.

(** X7: The entry of a query that is answered successfully with
    [webPages.value] an array of objects: one block per item, in the
    order of the array, with the item's [name] (or "No Title") as title
    and its [url] (or "#") as link. *)
Theorem successful_entry_content (query loc : pyval) (w : World)
        (r : response) (body web : pydict) (items : list pydict) :
  net (the_request (self w) query loc) = inr r ->
  (status_code r < 400 \/ 600 <= status_code r)%Z ->
  json_body r = inr (PDict body) ->
  Py.lookup "webPages" body = Some (PDict web) ->
  Py.lookup "value" web = Some (PList (map PDict items)) ->
  exists v : pyval,
    fst (bing_search net query loc w) = inr v
    /\ render_outcome py_str query (inr v)
       = Py.join Py.nl
           (map (fun item =>
                   plain_block py_str query (item_title item, item_link item))
                items).
Proof.
  intros Hn Hs Hb Hw Hv.
  rewrite bing_search_spec; simpl.
  rewrite (outcome_success net _ _ _ _ _ Hn Hs Hb).
  unfold normalize; simpl. unfold Py.has_key. rewrite Hw; simpl.
  unfold Py.has_key. rewrite Hv; simpl.
  rewrite rmap_map.
  rewrite (rmap_total _ (hit_of_item query))
    by (intros; apply simplify_item_dict).
  simpl. eexists; split; [reflexivity|].
  unfold render_outcome; simpl rbind.
  change (map (hit_of_item query) items)
    with (map (fun item =>
                 (fun tl => PDict [("query", query); ("title", fst tl);
                                   ("link", snd tl); ("sitelinks", PList [])])
                   (item_title item, item_link item)) items).
  rewrite <- (map_map (fun item => (item_title item, item_link item))).
  rewrite format_plain_hits. now rewrite map_map.
Qed.

(** X8: The position of an entry in the report is the position of its
    future in the order [as_completed] yields: the i-th entry belongs to
    the query whose future is yielded i-th, not to the i-th query of the
    request. *)
Theorem report_follows_yield_order
        (order : list nat) (tr : pydict) (state : pyval) (w : World)
        (qs : list pyval) :
  Py.lookup "queries" tr = Some (PList qs) -> qs <> [] ->
  Permutation order (seq 0 (length qs)) ->
  fst (execute_tool net py_str order tr state w)
  = inr (Py.join Py.nl
           (map (fun i => entry net py_str (self w)
                                (location_of (self w) tr) (nth i qs PNone))
                order)).
Proof.
  intros Hq Hne Hp.
  rewrite (execute_tool_spec net py_str order tr state w qs Hq Hne).
  cbn [fst]. unfold search_results_list.
  set (f := fun q : pyval =>
              (q, @inr pyexn pyval
                    (outcome net (self w) q (location_of (self w) tr)))).
  unfold res.
  rewrite (as_completed_nth (map f qs) order (f PNone)).
  - rewrite map_map. do 2 f_equal.
    apply map_ext. intros i. now rewrite map_nth.
  - rewrite length_map. apply Forall_forall. intros i Hi.
    apply (Permutation_in _ Hp) in Hi. apply in_seq in Hi. lia.
Qed.

End MoreReport.

(** ** Further properties of [execute_tool] and of the script *)

Section MoreExecuteTool.

Variable net : request -> reply.
Variable py_str : pyval -> string.

(** A batch whose [queries] value is truthy and iterable: one call per
    item the iteration yields. *)
Lemma execute_tool_iter (order : list nat) (tr : pydict) (state : pyval)
      (w : World) (queries : pyval) (qs : list pyval) :
  Py.lookup "queries" tr = Some queries ->
  Py.truthy queries = true -> Py.iter queries = inr qs ->
  execute_tool net py_str order tr state w =
    (inr (Py.join Py.nl
            (search_results_list py_str order
               (map (fun q => (q, inr (outcome net (self w) q
                                               (location_of (self w) tr))))
                    qs))),
     mk_world (self w)
        (calls w ++ map (fun q => the_request (self w) q
                                              (location_of (self w) tr)) qs)).
Proof.
  intros Hq Ht Hi.
  unfold execute_tool, bind, get_self. rewrite Hq, Ht.
  cbn [negb]. unfold lift. rewrite Hi.
  rewrite submit_all_spec. reflexivity.
Qed.

(** X10: A [queries] value that is a non-empty string instead of a list is
    not rejected: it is iterated, and one search is made for each of its
    characters (code points), in the order of the string. *)
Theorem string_queries_search_each_character
        (order : list nat) (tr : pydict) (state : pyval) (w : World)
        (s : string) :
  Py.lookup "queries" tr = Some (PStr s) -> s <> "" ->
  (exists report,
      fst (execute_tool net py_str order tr state w) = inr report)
  /\ calls (snd (execute_tool net py_str order tr state w))
     = (calls w ++ map (fun c => the_request (self w) c
                                             (location_of (self w) tr))
                       (map PStr (Py.code_points s)))%list
  /\ Py.join "" (Py.code_points s) = s.
Proof.
  intros Hq Hs.
  rewrite (execute_tool_iter order tr state w (PStr s) (Py.chars s) Hq).
  - split; [eexists; reflexivity|].
    split; [reflexivity|apply code_points_join].
  - simpl. apply negb_true_iff, String.eqb_neq. exact Hs.
  - reflexivity.
Qed.

(** X11: Nothing is remembered between two batches: the same request, with
    the futures yielded in the same order, run again on the world the first run
    left, returns the same report and sends every request once more. *)
Theorem execute_tool_twice_resends
        (order : list nat) (tr : pydict) (state : pyval) (w : World)
        (qs : list pyval) :
  Py.lookup "queries" tr = Some (PList qs) -> qs <> [] ->
  let first := execute_tool net py_str order tr state w in
  let second := execute_tool net py_str order tr state (snd first) in
  let sent := map (fun q => the_request (self w) q
                                        (location_of (self w) tr)) qs in
  fst second = fst first
  /\ calls (snd second) = (calls w ++ sent ++ sent)%list.
Proof.
  intros Hq Hne first second sent. subst first second sent.
  rewrite (execute_tool_spec net py_str order tr state w qs Hq Hne).
  cbn [snd fst].
  rewrite (execute_tool_spec net py_str order tr state _ qs Hq Hne).
  cbn [snd fst self calls]. split; [reflexivity|].
  now rewrite <- app_assoc.
Qed.

End MoreExecuteTool.

(** ** Further properties of the formatter *)

Section MoreFormat.

Variable py_str : pyval -> string.

Lemma format_result_defaults (d : pydict) :
  no_sitelinks d = true ->
  format_result py_str (PDict d)
  = inr (plain_block py_str (get_or d "query" (PStr "No Query"))
           (get_or d "title" (PStr "No Title"),
            get_or d "link" (PStr "No Link"))).
Proof.
  unfold no_sitelinks, get_or, format_result, plain_block, Py.get.
  intros H.
  destruct (Py.lookup "query" d), (Py.lookup "title" d),
    (Py.lookup "link" d), (Py.lookup "sitelinks" d);
    cbn [rbind ok fst snd] in *;
    try (apply negb_true_iff in H; rewrite H);
    cbn [Py.truthy rbind ok]; rewrite divider_repeat;
    now rewrite !str_app_assoc.
Qed.

(** X13: The formatter does not need complete hit records: for any list of
    dictionaries without sitelinks it renders one block per dictionary,
    in order, and a missing [query], [title] or [link] key is written as
    "No Query", "No Title" or "No Link"; a missing [sitelinks] key is
    written as [Sitelinks: None]. *)
Theorem format_search_results_defaults (ds : list pydict) :
  Forall (fun d => no_sitelinks d = true) ds ->
  format_search_results py_str
    (PDict [("organic_results", PList (map PDict ds))])
  = inr (Py.join Py.nl
           (map (fun d =>
                   plain_block py_str (get_or d "query" (PStr "No Query"))
                     (get_or d "title" (PStr "No Title"),
                      get_or d "link" (PStr "No Link")))
                ds)).
Proof.
  intros H. unfold format_search_results; simpl.
  rewrite rmap_map.
  rewrite (rmap_total _ (fun d =>
             plain_block py_str (get_or d "query" (PStr "No Query"))
               (get_or d "title" (PStr "No Title"),
                get_or d "link" (PStr "No Link")))).
  - reflexivity.
  - intros d Hd. apply format_result_defaults.
    exact (proj1 (Forall_forall _ ds) H d Hd).
Qed.

End MoreFormat.

(** X14: What bing_search returns for a query depends on the network only
    through the answer to that query's own request: two networks that
    agree on it give the same value, however they answer the other
    requests of the batch. *)
Theorem bing_search_isolated (net1 net2 : request -> reply)
        (query loc : pyval) (w : World) :
  net1 (the_request (self w) query loc)
  = net2 (the_request (self w) query loc) ->
  bing_search net1 query loc w = bing_search net2 query loc w.
Proof.
  intros H. rewrite !bing_search_spec.
  unfold outcome, fetch. now rewrite H.
Qed.

(** ** The further properties at concrete inputs *)

Lemma http_error_status_outcome_witness :
  fst (bing_search sample_net (PStr "denied") (PStr "us") sample_world)
  = inr (PDict [("error",
                 PStr ("HTTP error occurred: 401 Client Error: Unauthorized"
                       ++ " for url: https://api.example/v7.0/search"))])
  /\ render_outcome str_builtin (PStr "denied")
       (inr (PDict [("error",
                     PStr ("HTTP error occurred: 401 Client Error: "
                           ++ "Unauthorized for url: "
                           ++ "https://api.example/v7.0/search"))]))
     = "".
Proof.
  exact (http_error_status_outcome sample_net str_builtin (PStr "denied")
           (PStr "us") sample_world response_denied eq_refl
           ltac:(simpl; lia)).
Defined.

Lemma raised_exception_outcome_witness :
  fst (bing_search sample_net (PStr "down") (PStr "us") sample_world)
  = inr (PDict [("error",
                 PStr "Request error occurred: connection refused")])
  /\ fst (bing_search sample_net (PStr "garbled") (PStr "us") sample_world)
     = inr (PDict [("error",
                    PStr ("Request error occurred: "
                          ++ "Expecting value: line 1 column 1 (char 0)"))]).
Proof.
  split.
  - exact (raised_exception_outcome sample_net (PStr "down") (PStr "us")
             sample_world (mk_exn RequestException "connection refused")
             (or_introl eq_refl)).
  - exact (raised_exception_outcome sample_net (PStr "garbled") (PStr "us")
             sample_world
             (mk_exn RequestException
                     "Expecting value: line 1 column 1 (char 0)")
             (or_intror
                (ex_intro _ response_garbled
                   (conj eq_refl (conj (or_introl eq_refl) eq_refl))))).
Defined.

Lemma scalar_webpages_is_error_witness :
  exists msg,
    fst (bing_search sample_net (PStr "null") (PStr "us") sample_world)
    = inr (PDict [("error", PStr msg)])
    /\ render_outcome str_builtin (PStr "null")
         (inr (PDict [("error", PStr msg)])) = "".
Proof.
  exact (scalar_webpages_is_error sample_net str_builtin (PStr "null")
           (PStr "us") sample_world
           (json_ok (PDict [("webPages", PNone)]))
           (PDict [("webPages", PNone)])
           eq_refl (or_introl eq_refl) eq_refl
           (or_intror
              (ex_intro _ [("webPages", PNone)]
                 (ex_intro _ PNone
                    (conj eq_refl (conj eq_refl eq_refl)))))).
Defined.

Lemma non_object_item_discards_hits_witness :
  exists msg,
    fst (bing_search other_net (PStr "mixed") (PStr "us") sample_world)
    = inr (PDict [("error", PStr msg)])
    /\ render_outcome str_builtin (PStr "mixed")
         (inr (PDict [("error", PStr msg)])) = "".
Proof.
  exact (non_object_item_discards_hits other_net str_builtin (PStr "mixed")
           (PStr "us") sample_world (json_ok (PDict body_mixed))
           body_mixed web_mixed
           [PDict [("name", PStr "A"); ("url", PStr "http://a")]; PInt 5]
           (PInt 5)
           eq_refl (or_introl eq_refl) eq_refl eq_refl eq_refl
           (or_intror (or_introl eq_refl)) eq_refl).
Defined.

Lemma successful_entry_content_witness :
  exists v : pyval,
    fst (bing_search sample_net (PStr "ab") (PStr "us") sample_world) = inr v
    /\ render_outcome str_builtin (PStr "ab") (inr v)
       = Py.join Py.nl
           [plain_block str_builtin (PStr "ab") (PStr "A", PStr "http://a");
            plain_block str_builtin (PStr "ab") (PStr "B", PStr "http://b")].
Proof.
  exact (successful_entry_content sample_net str_builtin (PStr "ab")
           (PStr "us") sample_world response_ab body_ab web_ab items_ab
           eq_refl (or_introl eq_refl) eq_refl eq_refl eq_refl).
Defined.

Lemma report_follows_yield_order_witness :
  fst (execute_tool sample_net str_builtin [1; 0]
                    (request_of ["ab"; "denied"]) PNone sample_world)
  = inr (Py.join Py.nl
           [entry sample_net str_builtin sample_agent (PStr "us")
                  (PStr "denied");
            entry sample_net str_builtin sample_agent (PStr "us")
                  (PStr "ab")]).
Proof.
  exact (report_follows_yield_order sample_net str_builtin [1; 0]
           (request_of ["ab"; "denied"]) PNone sample_world
           [PStr "ab"; PStr "denied"] eq_refl ltac:(discriminate)
           (perm_swap 0 1 [])).
Defined.

Lemma string_queries_search_each_character_witness :
  (exists report,
      fst (execute_tool sample_net str_builtin [0; 1]
                        [("queries", PStr ("a" ++ e_acute))] PNone
                        sample_world)
      = inr report)
  /\ calls (snd (execute_tool sample_net str_builtin [0; 1]
                              [("queries", PStr ("a" ++ e_acute))] PNone
                              sample_world))
     = [the_request sample_agent (PStr "a") (PStr "us");
        the_request sample_agent (PStr e_acute) (PStr "us")]
  /\ Py.join "" ["a"; e_acute] = "a" ++ e_acute.
Proof.
  exact (string_queries_search_each_character sample_net str_builtin [0; 1]
           [("queries", PStr ("a" ++ e_acute))] PNone sample_world
           ("a" ++ e_acute) eq_refl ltac:(discriminate)).
Defined.

Lemma execute_tool_twice_resends_witness :
  fst (execute_tool sample_net str_builtin [0] (request_of ["ab"]) PNone
         (snd (execute_tool sample_net str_builtin [0] (request_of ["ab"])
                            PNone sample_world)))
  = fst (execute_tool sample_net str_builtin [0] (request_of ["ab"]) PNone
                      sample_world)
  /\ calls (snd (execute_tool sample_net str_builtin [0]
                   (request_of ["ab"]) PNone
                   (snd (execute_tool sample_net str_builtin [0]
                           (request_of ["ab"]) PNone sample_world))))
     = [the_request sample_agent (PStr "ab") (PStr "us");
        the_request sample_agent (PStr "ab") (PStr "us")].
Proof.
  exact (execute_tool_twice_resends sample_net str_builtin [0]
           (request_of ["ab"]) PNone sample_world [PStr "ab"] eq_refl
           ltac:(discriminate)).
Defined.

Lemma format_search_results_defaults_witness :
  format_search_results str_builtin
    (PDict [("organic_results",
             PList [PDict []; PDict [("title", PStr "T")]])])
  = inr (Py.join Py.nl
           [plain_block str_builtin (PStr "No Query")
                        (PStr "No Title", PStr "No Link");
            plain_block str_builtin (PStr "No Query")
                        (PStr "T", PStr "No Link")]).
Proof.
  apply (format_search_results_defaults str_builtin
           [[]; [("title", PStr "T")]]).
  repeat constructor.
Defined.

Lemma bing_search_isolated_witness :
  bing_search sample_net (PStr "ab") (PStr "us") sample_world
  = bing_search other_net (PStr "ab") (PStr "us") sample_world.
Proof.
  exact (bing_search_isolated sample_net other_net (PStr "ab") (PStr "us")
           sample_world eq_refl).
Defined.

(** ** Answers without the expected structure *)

Lemma normalize_scalar_webpages (query : pyval) (body : pydict) (v : pyval) :
  Py.lookup "webPages" body = Some v -> is_scalar v = true ->
  exists e, normalize query (PDict body) = inl e /\ exn_cls e = TypeError.
Proof.
  intros Hw Hs. unfold normalize; simpl. unfold Py.has_key. rewrite Hw; simpl.
  destruct v; try discriminate; eexists; split; reflexivity.
Qed.

Lemma normalize_non_object_item (query : pyval) (body web : pydict)
      (items : list pyval) (x : pyval) :
  Py.lookup "webPages" body = Some (PDict web) ->
  Py.lookup "value" web = Some (PList items) ->
  In x items -> is_dict x = false ->
  exists e, normalize query (PDict body) = inl e
            /\ exn_cls e = AttributeError.
Proof.
  intros Hw Hv Hin Hx.
  assert (Hfx : exists e, simplify_item query x = inl e).
  { destruct x; try discriminate; eexists; reflexivity. }
  destruct Hfx as [e0 Hfx].
  destruct (rmap_first_failure (simplify_item query) items x e0 Hin Hfx)
    as (x' & e & _ & Hf' & Hr).
  exists e. split; [|exact (proj2 (simplify_item_fails query x' e Hf'))].
  unfold normalize; simpl. unfold Py.has_key. rewrite Hw; simpl.
  unfold Py.has_key. rewrite Hv; simpl. now rewrite Hr.
Qed.

Lemma normalize_no_value (query : pyval) (body : pydict) :
  Py.lookup "webPages" body = None
  \/ (exists web, Py.lookup "webPages" body = Some (PDict web)
                  /\ Py.lookup "value" web = None) ->
  normalize query (PDict body) = inr (PDict [("organic_results", PList [])]).
Proof.
  intros [Hw|[web [Hw Hv]]]; unfold normalize; simpl; unfold Py.has_key;
    rewrite Hw; simpl; [reflexivity|].
  unfold Py.has_key. now rewrite Hv.
Qed.

Section Structure.

Variable net : request -> reply.
Variable py_str : pyval -> string.

Lemma fetch_success (a : Agent) (query loc : pyval) (r : response)
      (results : pyval) :
  net (the_request a query loc) = inr r ->
  (status_code r < 400 \/ 600 <= status_code r)%Z ->
  json_body r = inr results ->
  fetch net a query loc = normalize query results.
Proof.
  intros Hn Hs Hb. unfold fetch. rewrite Hn; simpl.
  rewrite (raise_for_status_ok r Hs); simpl. now rewrite Hb.
Qed.

(** The report of a batch in which one query has an empty entry. *)
Lemma report_with_empty_entry (order : list nat) (tr : pydict)
      (state : pyval) (w : World) (query : pyval)
      (before after : list pyval) :
  entry net py_str (self w) (location_of (self w) tr) query = "" ->
  Py.lookup "queries" tr = Some (PList (before ++ query :: after)) ->
  Permutation order (seq 0 (length (before ++ query :: after))) ->
  exists entries : list string,
    fst (execute_tool net py_str order tr state w)
    = inr (Py.join Py.nl entries)
    /\ Permutation entries
         (map (entry net py_str (self w) (location_of (self w) tr)) before
          ++ "" :: map (entry net py_str (self w) (location_of (self w) tr))
                       after).
Proof.
  intros He Hq Hp.
  destruct (report_entries net py_str order tr state w _ Hq) as
    (entries & Hr & Hperm); [now destruct before | exact Hp |].
  exists entries. split; [exact Hr|].
  rewrite map_app in Hperm. cbn [map] in Hperm. now rewrite He in Hperm.
Qed.

(** C4, as amended: for a successful JSON answer whose body is an
    object, when [webPages] is an object whose [value] is an array of
    objects bing_search returns one hit per item, in order, with title
    from [name] (default "No Title"), link from [url] (default "#") and
    empty sitelinks; when the [webPages] key is absent, or [webPages] is
    an object without the [value] key, it returns the empty hit list and
    not an error dictionary; when [webPages] is [null], a boolean or a
    number, or an item of the array is not an object, it returns an
    error dictionary. *)
Theorem bing_search_maps_items (query loc : pyval) (w : World)
        (r : response) (body : pydict) :
  net (the_request (self w) query loc) = inr r ->
  (status_code r < 400 \/ 600 <= status_code r)%Z ->
  json_body r = inr (PDict body) ->
  (forall (web : pydict) (items : list pydict),
      Py.lookup "webPages" body = Some (PDict web) ->
      Py.lookup "value" web = Some (PList (map PDict items)) ->
      fst (bing_search net query loc w)
      = inr (PDict [("organic_results",
                     PList (map (hit_of_item query) items))]))
  /\ (Py.lookup "webPages" body = None
      \/ (exists web, Py.lookup "webPages" body = Some (PDict web)
                      /\ Py.lookup "value" web = None) ->
      fst (bing_search net query loc w)
      = inr (PDict [("organic_results", PList [])]))
  /\ ((exists v, Py.lookup "webPages" body = Some v /\ is_scalar v = true)
      \/ (exists web items x,
             Py.lookup "webPages" body = Some (PDict web)
             /\ Py.lookup "value" web = Some (PList items)
             /\ In x items /\ is_dict x = false) ->
      exists msg,
        fst (bing_search net query loc w)
        = inr (PDict [("error", PStr msg)])).
Proof.
  intros Hn Hs Hb.
  pose proof (fetch_success (self w) query loc r _ Hn Hs Hb) as Hf.
  split; [|split].
  - intros web items Hw Hv.
    rewrite bing_search_spec; simpl. unfold outcome. rewrite Hf.
    unfold normalize; simpl. unfold Py.has_key. rewrite Hw; simpl.
    unfold Py.has_key. rewrite Hv; simpl.
    rewrite rmap_map.
    rewrite (rmap_total _ (hit_of_item query))
      by (intros; apply simplify_item_dict).
    reflexivity.
  - intros H.
    rewrite bing_search_spec; simpl. unfold outcome.
    now rewrite Hf, (normalize_no_value query body H).
  - intros H.
    assert (He : exists e, normalize query (PDict body) = inl e
                           /\ (exn_cls e = TypeError
                               \/ exn_cls e = AttributeError)).
    { destruct H as [(v & Hw & Hv)|(web & items & x & Hw & Hv & Hin & Hx)].
      - destruct (normalize_scalar_webpages query body v Hw Hv) as (e & H1 & H2).
        exists e; split; [exact H1|now left].
      - destruct (normalize_non_object_item query body web items x
                    Hw Hv Hin Hx) as (e & H1 & H2).
        exists e; split; [exact H1|now right]. }
    destruct He as (e & He & Hc).
    rewrite (failed_fetch_result net query loc w e)
      by (now rewrite Hf).
    unfold error_dict. destruct Hc as [Hc|Hc]; rewrite Hc;
      eexists; reflexivity.
Qed.

(** C8, as amended: when a query is answered successfully with a JSON
    object in which the [webPages] key is absent, or [webPages] is an
    object without the [value] key, bing_search returns the empty hit
    list; when [webPages] is [null], a boolean or a number it returns an
    error dictionary instead.  In both cases the entry of the query is
    the empty string: in the report of any batch that contains the
    query, for any order of the futures, it contributes an empty entry,
    with no block line and no error line. *)
Theorem missing_webpages_renders_nothing
        (query loc : pyval) (w : World) (r : response) (body : pydict) :
  net (the_request (self w) query loc) = inr r ->
  (status_code r < 400 \/ 600 <= status_code r)%Z ->
  json_body r = inr (PDict body) ->
  (Py.lookup "webPages" body = None
   \/ (exists web, Py.lookup "webPages" body = Some (PDict web)
                   /\ Py.lookup "value" web = None) ->
   fst (bing_search net query loc w)
   = inr (PDict [("organic_results", PList [])]))
  /\ ((exists v, Py.lookup "webPages" body = Some v /\ is_scalar v = true) ->
      exists msg,
        fst (bing_search net query loc w)
        = inr (PDict [("error", PStr msg)]))
  /\ (Py.lookup "webPages" body = None
      \/ (exists web, Py.lookup "webPages" body = Some (PDict web)
                      /\ Py.lookup "value" web = None)
      \/ (exists v, Py.lookup "webPages" body = Some v
                    /\ is_scalar v = true) ->
      forall (order : list nat) (tr : pydict) (state : pyval)
             (before after : list pyval),
        Py.lookup "queries" tr = Some (PList (before ++ query :: after)) ->
        location_of (self w) tr = loc ->
        Permutation order (seq 0 (length (before ++ query :: after))) ->
        exists entries : list string,
          fst (execute_tool net py_str order tr state w)
          = inr (Py.join Py.nl entries)
          /\ Permutation entries
               (map (fun q => render_outcome py_str q
                                (inr (outcome net (self w) q loc))) before
                ++ "" :: map (fun q => render_outcome py_str q
                                         (inr (outcome net (self w) q loc)))
                             after)).
Proof.
  intros Hn Hs Hb.
  pose proof (fetch_success (self w) query loc r _ Hn Hs Hb) as Hf.
  split; [|split].
  - intros H. rewrite bing_search_spec; simpl. unfold outcome.
    now rewrite Hf, (normalize_no_value query body H).
  - intros (v & Hw & Hv).
    destruct (normalize_scalar_webpages query body v Hw Hv) as (e & He & Hc).
    rewrite (failed_fetch_result net query loc w e) by (now rewrite Hf).
    unfold error_dict. rewrite Hc. eexists; reflexivity.
  - intros H order tr state before after Hq Hl Hp.
    assert (He : entry net py_str (self w) loc query = "").
    { destruct H as [H|[H|(v & Hw & Hv)]].
      - unfold entry, outcome.
        now rewrite Hf, (normalize_no_value query body (or_introl H)).
      - unfold entry, outcome.
        now rewrite Hf, (normalize_no_value query body (or_intror H)).
      - destruct (normalize_scalar_webpages query body v Hw Hv)
          as (e & He & _).
        apply (failed_fetch_entry net py_str (self w) loc query e).
        now rewrite Hf. }
    rewrite <- Hl in He.
    destruct (report_with_empty_entry order tr state w query before after
                He Hq Hp) as (entries & Hr & Hperm).
    exists entries. split; [exact Hr|].
    rewrite Hl in Hperm. exact Hperm.
Qed.

End Structure.

(** C4, as the claim words it, fails on two successful answers: an
    array with an item that is not an object, and a [webPages] member
    that is [null].  Both give an error dictionary, neither the hits nor
    the empty hit list. *)
Lemma malformed_answers_give_errors :
  fst (bing_search other_net (PStr "mixed") (PStr "us") sample_world)
  = inr (PDict [("error", PStr "'int' object has no attribute 'get'")])
  /\ fst (bing_search sample_net (PStr "null") (PStr "us") sample_world)
     = inr (PDict [("error",
                    PStr "argument of type 'NoneType' is not iterable")])
  /\ fst (bing_search sample_net (PStr "null") (PStr "us") sample_world)
     <> inr (PDict [("organic_results", PList [])]).
Proof.
  split; [reflexivity|]. split; [reflexivity|].
  vm_compute. discriminate.
Qed.

(** C8, as the claim words it, fails on the answer [{"webPages": null}]:
    the response lacks the structure, yet the outcome of the query is an
    error dictionary and not an empty hit list (its rendering is empty
    all the same). *)
Lemma null_webpages_outcome_is_error :
  json_body (json_ok (PDict [("webPages", PNone)]))
  = inr (PDict [("webPages", PNone)])
  /\ fst (bing_search sample_net (PStr "null") (PStr "us") sample_world)
     = inr (PDict [("error",
                    PStr "argument of type 'NoneType' is not iterable")])
  /\ PDict [("error", PStr "argument of type 'NoneType' is not iterable")]
     <> PDict [("organic_results", PList [])]
  /\ entry sample_net str_builtin sample_agent (PStr "us") (PStr "null") = "".
Proof.
  split; [reflexivity|]. split; [reflexivity|].
  split; [discriminate|reflexivity].
Qed.

Lemma bing_search_maps_items_witness :
  fst (bing_search sample_net (PStr "ab") (PStr "us") sample_world)
  = inr (hits_to_py hits_ab)
  /\ fst (bing_search sample_net (PStr "nothing") (PStr "us") sample_world)
     = inr (PDict [("organic_results", PList [])])
  /\ exists msg,
       fst (bing_search other_net (PStr "mixed") (PStr "us") sample_world)
       = inr (PDict [("error", PStr msg)]).
Proof.
  split; [|split].
  - exact (proj1 (bing_search_maps_items sample_net (PStr "ab") (PStr "us")
                    sample_world response_ab body_ab
                    eq_refl (or_introl eq_refl) eq_refl)
                 web_ab items_ab eq_refl eq_refl).
  - exact (proj1 (proj2 (bing_search_maps_items sample_net (PStr "nothing")
                           (PStr "us") sample_world response_nothing
                           body_nothing
                           eq_refl (or_introl eq_refl) eq_refl))
                 (or_introl eq_refl)).
  - apply (proj2 (proj2 (bing_search_maps_items other_net (PStr "mixed")
                           (PStr "us") sample_world
                           (json_ok (PDict body_mixed)) body_mixed
                           eq_refl (or_introl eq_refl) eq_refl))).
    right. exists web_mixed.
    exists [PDict [("name", PStr "A"); ("url", PStr "http://a")]; PInt 5].
    exists (PInt 5).
    repeat split; try reflexivity. right; left; reflexivity.
Defined.

Lemma missing_webpages_renders_nothing_witness :
  fst (bing_search sample_net (PStr "nothing") (PStr "us") sample_world)
  = inr (PDict [("organic_results", PList [])])
  /\ exists entries : list string,
       fst (execute_tool sample_net str_builtin [1; 0]
                         (request_of ["ab"; "nothing"]) PNone sample_world)
       = inr (Py.join Py.nl entries)
       /\ Permutation entries
            [render_outcome str_builtin (PStr "ab")
               (inr (outcome sample_net sample_agent (PStr "ab") (PStr "us")));
             ""].
Proof.
  split.
  - exact (proj1 (missing_webpages_renders_nothing sample_net str_builtin
                    (PStr "nothing") (PStr "us") sample_world
                    response_nothing body_nothing
                    eq_refl (or_introl eq_refl) eq_refl)
                 (or_introl eq_refl)).
  - exact (proj2 (proj2 (missing_webpages_renders_nothing sample_net
                           str_builtin (PStr "nothing") (PStr "us")
                           sample_world response_nothing body_nothing
                           eq_refl (or_introl eq_refl) eq_refl))
                 (or_introl eq_refl) [1; 0] (request_of ["ab"; "nothing"])
                 PNone [PStr "ab"] [] eq_refl eq_refl (perm_swap 0 1 [])).
Defined.
